(** * Selfa forecasting scripts: [scripts/lstm_validate.py] and
      [scripts/chronos_predict.py]

    A shallow embedding of the two command-line programs.  Python floats and
    numpy [float64] values are IEEE binary64 numbers, which is what Rocq's
    primitive [float] is, so the arithmetic of the scripts is evaluated as the
    interpreter evaluates it.  Code that lives outside the repository (the
    hub client, the tensor runtimes, the pretrained networks, the [float]
    constructor of the language) is represented by functions that the
    definitions receive: a call either returns a value or raises. *)

From Stdlib Require Import String Ascii List ZArith Lia Bool Floats.
From Stdlib Require Import DecimalString Sorting.Sorted Sorting.Permutation.
Import ListNotations.

Set Implicit Arguments.
Set Warnings "-register-all".

(** ** Results of calls that may raise *)

Inductive Res (A : Type) : Type :=
| Ok (a : A)
| Raise (msg : string).

Arguments Ok {A} a.
Arguments Raise {A} msg.

Definition is_ok {A} (r : Res A) : bool :=
  match r with Ok _ => true | Raise _ => false end.

(** Python truthiness of a [str]: the empty string is falsy. *)
Definition truthy (s : string) : bool :=
  match s with EmptyString => false | String _ _ => true end.

(** [l[-n:]] for a positive [n]: the last [n] elements, the whole list when
    it is shorter. *)
Definition last_n {A} (n : nat) (l : list A) : list A :=
  skipn (length l - n) l.

(** [l[lo:hi]] for non-negative bounds. *)
Definition py_slice {A} (lo hi : nat) (l : list A) : list A :=
  firstn (hi - lo) (skipn lo l).

(** [s.split(',')]: never empty, an empty string gives one empty token. *)
Fixpoint split_comma (s : string) : list string :=
  match s with
  | EmptyString => [EmptyString]
  | String c rest =>
      if Ascii.eqb c ","%char then EmptyString :: split_comma rest
      else match split_comma rest with
           | tok :: toks => String c tok :: toks
           | [] => [String c EmptyString]
           end
  end.

(** [[float(x) for x in tokens]]: the first token that is no number raises
    [ValueError] ([None]). *)
Fixpoint parse_tokens {N} (py_float : string -> option N)
    (tokens : list string) : option (list N) :=
  match tokens with
  | [] => Some []
  | tok :: rest =>
      match py_float tok with
      | None => None
      | Some x =>
          match parse_tokens py_float rest with
          | None => None
          | Some xs => Some (x :: xs)
          end
      end
  end.

(** [str(n)] for a natural number. *)
Definition str_of_nat (n : nat) : string :=
  NilEmpty.string_of_uint (Nat.to_uint n).

(** The values handed to [json.dumps], over the number type [N]. *)
Inductive Json (N : Type) : Type :=
| JString (s : string)
| JNumber (x : N)
| JArray (items : list N)
| JObject (fields : list (string * Json N)).

Arguments JString {N} s.
Arguments JNumber {N} x.
Arguments JArray {N} items.
Arguments JObject {N} fields.

(** What a run of a program leaves behind: the lines printed on standard
    output and the exit status. *)
Record Process (N : Type) : Type := {
  stdout : list (Json N);
  exit_status : Z
}.

Definition error_exit {N} (message : string) : Process N :=
  {| stdout := [JObject [("error"%string, JString message)]];
     exit_status := 1 |}.

(** ** Numbers *)

Module Num.

Local Open Scope float_scope.

(** Conversion of a binary64 value to [float32] and back, as
    [torch.FloatTensor(...)] and [torch.tensor(..., dtype=torch.float32)]
    store it: rounding to nearest even on 24 bits of precision. *)
Definition to_float32 (x : float) : float :=
  match Prim2SF x with
  | S754_finite s m e => SF2Prim (binary_round 24 128 s m e)
  | _ => x
  end.

(** One step of numpy's scalar [minimum] and [maximum] reductions,
    [(a <= b || isnan(a)) ? a : b] and [(a >= b || isnan(a)) ? a : b]: a
    NaN is kept once it is met. *)
Definition min_step (acc x : float) : float :=
  if (acc <=? x) || is_nan acc then acc else x.

Definition max_step (acc x : float) : float :=
  if (x <=? acc) || is_nan acc then acc else x.

Definition zero_size (name : string) : string :=
  ("zero-size array to reduction operation " ++ name
     ++ " which has no identity")%string.

(** [np.min] and [np.max] of a flat array; an empty array raises. *)
Definition np_min (a : list float) : Res float :=
  match a with
  | [] => Raise (zero_size "minimum")
  | x :: rest => Ok (fold_left min_step rest x)
  end.

Definition np_max (a : list float) : Res float :=
  match a with
  | [] => Raise (zero_size "maximum")
  | x :: rest => Ok (fold_left max_step rest x)
  end.

(** A reference mean (left-to-right sum divided by the count), used where
    a concrete reduction is needed to evaluate an example. *)
Definition seq_mean (a : list float) : float :=
  fold_left PrimFloat.add a 0 / of_uint63 (Uint63.of_Z (Z.of_nat (length a))).

End Num.

(** ** Program B: [lstm_validate.py] *)

Module LstmValidate.

Import Num.
Local Open Scope float_scope.

Definition SEQUENCE_LENGTH : nat := 60.
Definition INPUT_SIZE : nat := 1.
Definition HIDDEN_SIZE : nat := 50.
Definition NUM_LAYERS : nat := 2.

(** A tensor of shape (1, T, C): the T timesteps, each a row of C
    channels; the batch axis always has size 1 and is left implicit. *)
Definition Tensor : Type := list (list float).

Definition Scaler : Type := Tensor -> Res Tensor.

Record KerasModel : Type := {
  input_shape : list (option Z);
  keras_predict : Tensor -> Res float   (* float(model.predict(x)[0][0]) *)
}.

(** What [load_model] hands to [predict]: an [nn.Module], or the tuple
    (model, scaler, metadata) of the Keras branch. *)
Inductive ModelHandle : Type :=
| TorchModule (forward : Tensor -> Res float)   (* model(x).item() *)
| KerasTuple (keras_model : KerasModel) (scaler : option Scaler)
             (metadata : option string).

(** A computation of [predict]: the tensors handed to the network so far,
    in call order, and the outcome. *)
Definition Run (A : Type) : Type := (list Tensor * Res A)%type.

Definition ret {A} (a : A) : Run A := ([], Ok a).

Definition bind {A B} (m : Run A) (k : A -> Run B) : Run B :=
  match m with
  | (log, Ok a) => let (log', r) := k a in (log ++ log', r)
  | (log, Raise e) => (log, Raise e)
  end.

Definition lift {A} (r : Res A) : Run A := ([], r).

(** One inference call: the input is recorded, the network answers. *)
Definition infer (net : Tensor -> Res float) (x : Tensor) : Run float :=
  ([x], net x).

Notation "x <- m ;; k" := (bind m (fun x => k))
  (at level 61, m at next level, right associativity).

Definition calls {A} (r : Run A) : list Tensor := fst r.
Definition outcome {A} (r : Run A) : Res A := snd r.

(** [x.reshape(-1, 1)] *)
Definition reshape_col (a : list float) : Tensor := map (fun x => [x]) a.

Definition flatten (t : Tensor) : list float := concat t.

Section Predict.

(** numpy's [mean] and [std] of a flat array: the order in which numpy
    adds the elements is its own, so both are received. *)
Variable np_mean : list float -> float.
Variable np_std : list float -> float.
(** The module-level flag set by [import tensorflow]. *)
Variable HAS_TF : bool.

(** The moving average of [span] points at position [i]:
    [np.mean(seq[max(0, i-(span-1)):i+1]) if i >= span-1 else price]. *)
Definition moving_average (span : nat) (current_sequence : list float)
    (i : nat) : float :=
  let price := nth i current_sequence nan in
  if (span - 1 <=? i)%nat
  then np_mean (py_slice (Nat.max 0 (i - (span - 1))) (i + 1)
                         current_sequence)
  else price.

(** The row synthesized for timestep [i]:
    [price, price_change, ma5, ma10, ma20, volume_sim]. *)
Definition feature_row (current_sequence : list float) (i : nat)
    : list float :=
  let price := nth i current_sequence nan in
  let price_change :=
    if (0 <? i)%nat
    then nth i current_sequence nan - nth (i - 1) current_sequence nan
    else 0 in
  let ma5 := moving_average 5 current_sequence i in
  let ma10 := moving_average 10 current_sequence i in
  let ma20 := moving_average 20 current_sequence i in
  let volume_sim := 1 in
  [price; price_change; ma5; ma10; ma20; volume_sim].

Definition synth_features (current_sequence : list float) : Tensor :=
  map (feature_row current_sequence) (seq 0 (length current_sequence)).

Definition column (c : nat) (features : Tensor) : list float :=
  map (fun row => nth c row nan) features.

(** [(features - np.mean(features, axis=0))
     / (np.std(features, axis=0) + 1e-8)] *)
Definition standardize (features : Tensor) : Tensor :=
  map (fun row =>
         map (fun cx : nat * float =>
                let (c, x) := cx in
                (x - np_mean (column c features))
                / (np_std (column c features) + 0x1.5798ee2308c3ap-27))
             (combine (seq 0 (length row)) row))
      features.

(** The scaler when there is one and it does not raise, else the manual
    standardization. *)
Definition normalize_features (scaler : option Scaler)
    (features : Tensor) : Tensor :=
  match scaler with
  | Some transform =>
      match transform features with
      | Ok scaled => scaled
      | Raise _ => standardize features
      end
  | None => standardize features
  end.

(** The loop of the 6-channel branch. *)
Fixpoint keras6_loop (km : KerasModel) (scaler : option Scaler)
    (n : nat) (current_sequence : list float) (input_tensor : Tensor)
    (predictions : list float) : Run (list float) :=
  match n with
  | O => ret predictions
  | S n' =>
      pred_val <- infer (keras_predict km) input_tensor ;;
      let mean_price := np_mean current_sequence in
      let std_price := np_std current_sequence in
      let real_pred := pred_val * std_price + mean_price in
      let predictions := predictions ++ [real_pred] in
      let current_sequence := tl current_sequence ++ [real_pred] in
      let features := synth_features current_sequence in
      let features := normalize_features scaler features in
      keras6_loop km scaler n' current_sequence features predictions
  end.

(** The loop shared in shape by the two single-feature branches; [cast]
    is the storage type of the appended step. *)
Fixpoint single_loop (net : Tensor -> Res float) (cast : float -> float)
    (scale min_val : float) (n : nat) (input_tensor : Tensor)
    (predictions : list float) : Run (list float) :=
  match n with
  | O => ret predictions
  | S n' =>
      pred_val <- infer net input_tensor ;;
      let real_pred := pred_val * scale + min_val in
      let predictions := predictions ++ [real_pred] in
      let new_step_norm := [[cast pred_val]] in
      single_loop net cast scale min_val n'
                  (tl input_tensor ++ new_step_norm) predictions
  end.

(** Calling the handle as [model(input_tensor)]: a tuple is not
    callable. *)
Definition call_module (model : ModelHandle) : Tensor -> Res float :=
  match model with
  | TorchModule forward => forward
  | KerasTuple _ _ _ => fun _ => Raise "'tuple' object is not callable"
  end.

Definition six_channels (shape : list (option Z)) : bool :=
  (length shape =? 3)%nat
  && match nth 2 shape None with
     | Some d => (d =? 6)%Z
     | None => false
     end.

(** The Keras fallback:
    [scale = max_val - min_val if max_val != min_val else 1.0]. *)
Definition scale_unless_flat (min_val max_val : float) : float :=
  if negb (max_val =? min_val) then max_val - min_val else 1.

(** The PyTorch branch:
    [if max_val == min_val: scale = 1.0 else: scale = max_val - min_val]. *)
Definition scale_or_one (min_val max_val : float) : float :=
  if max_val =? min_val then 1 else max_val - min_val.

Definition normalize_col (min_val scale : float) (t : Tensor) : Tensor :=
  map (map (fun x => (x - min_val) / scale)) t.

Definition predict (model : ModelHandle) (prices : list float)
    (steps : Z) : Run (list float) :=
  let predictions := [] in
  let current_sequence := last_n SEQUENCE_LENGTH prices in
  match HAS_TF, model with
  | true, KerasTuple keras_model scaler metadata =>
      if six_channels (input_shape keras_model) then
        let features := synth_features current_sequence in
        let features := normalize_features scaler features in
        keras6_loop keras_model scaler (Z.to_nat steps)
                    current_sequence features predictions
      else
        let current_sequence := reshape_col current_sequence in
        min_val <- lift (np_min (flatten current_sequence)) ;;
        max_val <- lift (np_max (flatten current_sequence)) ;;
        let scale := scale_unless_flat min_val max_val in
        let normalized_seq :=
          normalize_col min_val scale current_sequence in
        single_loop (keras_predict keras_model) (fun x => x)
                    scale min_val (Z.to_nat steps)
                    normalized_seq predictions
  | _, _ =>
      let current_sequence := reshape_col current_sequence in
      min_val <- lift (np_min (flatten current_sequence)) ;;
      max_val <- lift (np_max (flatten current_sequence)) ;;
      let scale := scale_or_one min_val max_val in
      let normalized_seq :=
        normalize_col min_val scale current_sequence in
      let input_tensor := map (map to_float32) normalized_seq in
      single_loop (call_module model) to_float32
                  scale min_val (Z.to_nat steps)
                  input_tensor predictions
  end.

End Predict.


(** *** Strings of file names *)

Definition lower_ascii (c : ascii) : ascii :=
  let n := nat_of_ascii c in
  if ((65 <=? n) && (n <=? 90))%nat then ascii_of_nat (n + 32) else c.

(** [s.lower()] on the ASCII letters. *)
Fixpoint lower (s : string) : string :=
  match s with
  | EmptyString => EmptyString
  | String c rest => String (lower_ascii c) (lower rest)
  end.

(** [sub in s] *)
Fixpoint contains (sub s : string) : bool :=
  prefix sub s
  || match s with
     | EmptyString => false
     | String _ rest => contains sub rest
     end.

(** [s.endswith(suffix)] *)
Definition endswith (suffix s : string) : bool :=
  (String.length suffix <=? String.length s)%nat
  && String.eqb
       (substring (String.length s - String.length suffix)
                  (String.length suffix) s)
       suffix.

(** *** The model resolver, [load_model] *)

(** What [torch.load] can give back: a dict (whose values may be dicts
    again) or any other object. *)
Inductive Checkpoint : Type :=
| CkDict (items : list (string * Checkpoint))
| CkObject (tag : string).

Definition dict_get (key : string) (items : list (string * Checkpoint))
    : option Checkpoint :=
  option_map snd (find (fun kv => String.eqb (fst kv) key) items).

(** The state dictionary inside a checkpoint: nested under
    ['model_state_dict'], else under ['state_dict'], else itself. *)
Definition unwrap_state_dict (state_dict : Checkpoint) : Checkpoint :=
  match state_dict with
  | CkDict items =>
      match dict_get "model_state_dict" items with
      | Some inner => inner
      | None =>
          match dict_get "state_dict" items with
          | Some inner => inner
          | None => state_dict
          end
      end
  | CkObject _ => state_dict
  end.

(** The collaborators of one run of the program. *)
Record Env : Type := {
  list_repo_files : Res (list string);
  hf_hub_download : string -> Res string;        (* file name to path *)
  HAS_TF : bool;
  tf_load_model : string -> Res KerasModel;
  json_load : string -> Res string;              (* open, json.load *)
  pickle_load : string -> Res Scaler;            (* open, pickle.load *)
  torch_load : string -> Res Checkpoint;
  (** [StockLSTM(...)] after [load_state_dict(state, strict=False)] and
      [eval()]: the network as a function, or the error raised. *)
  load_state_dict : Checkpoint -> Res (Tensor -> Res float);
  py_float : string -> option float;             (* None: ValueError *)
  np_mean : list float -> float;
  np_std : list float -> float
}.

(** The calls a run makes to the hub and to the loaders, in order. *)
Inductive Event : Type :=
| ListRepoFiles
| HubDownload (filename : string)
| KerasLoad (path : string)
| JsonLoad (path : string)
| PickleLoad (path : string)
| TorchLoad (path : string)
| LoadStateDict.

Definition IO (A : Type) : Type := (list Event * A)%type.

Definition io_ret {A} (a : A) : IO A := ([], a).

Definition io_bind {A B} (m : IO A) (k : A -> IO B) : IO B :=
  let (log, a) := m in
  let (log', b) := k a in
  (log ++ log', b).

Definition emit {A} (e : Event) (a : A) : IO A := ([e], a).

Notation "x <~ m ;; k" := (io_bind m (fun x => k))
  (at level 61, m at next level, right associativity).

Definition possible_filenames : list string :=
  [ "model.pth"; "pytorch_model.bin"; "model.bin"; "lstm_model.pth";
    "stock_lstm.pth"; "pytorch_model.pt"; "model.pt" ]%string.

Definition keras_files : list string :=
  [ "stage2_universal_lstm_20250705_170829.keras"; "model.keras";
    "lstm_model.keras" ]%string.

(** What [load_model] returns: [(model, None)] or [(None, message)]. *)
Inductive Loaded : Type :=
| Model (model : ModelHandle)
| Failure (err : string).

Definition str_opt (o : option string) : string :=
  match o with Some s => s | None => "None" end.

Definition path_truthy (p : option string) : bool :=
  match p with Some s => truthy s | None => false end.

Section Resolver.

Variable env : Env.

Definition list_files : IO (Res (list string)) :=
  emit ListRepoFiles (list_repo_files env).

Definition download (filename : string) : IO (Res string) :=
  emit (HubDownload filename) (hf_hub_download env filename).

(** The candidate loop: the first name that downloads wins; every
    failure overwrites [last_error]. *)
Fixpoint try_candidates (filenames : list string)
    (last_error : option string) : IO (option string * option string) :=
  match filenames with
  | [] => io_ret (None, last_error)
  | filename :: rest =>
      r <~ download filename ;;
      match r with
      | Ok path => io_ret (Some path, last_error)
      | Raise e => try_candidates rest (Some e)
      end
  end.

(** Any file of the listing that ends in [.keras]. *)
Definition find_any_keras : IO (option string) :=
  files <~ list_files ;;
  match files with
  | Ok files =>
      match find (endswith ".keras") files with
      | Some keras_file =>
          if truthy keras_file then
            r <~ download keras_file ;;
            match r with
            | Ok path => io_ret (Some path)
            | Raise _ => io_ret None
            end
          else io_ret None
      | None => io_ret None
      end
  | Raise _ => io_ret None
  end.

Definition is_scaler_file (f : string) : bool :=
  contains "scaler" (lower f) && endswith ".pkl" f.

Definition is_metadata_file (f : string) : bool :=
  contains "metadata" (lower f) && endswith ".json" f.

(** The search for the scaler and the metadata: one [try] block, so the
    first call that raises ends it, keeping what was assigned before. *)
Definition find_companions : IO (option string * option string) :=
  files <~ list_files ;;
  match files with
  | Raise _ => io_ret (None, None)
  | Ok files =>
      let scaler_file := find is_scaler_file files in
      let metadata_file := find is_metadata_file files in
      sp <~ (match scaler_file with
             | Some f =>
                 if truthy f then
                   r <~ download f ;;
                   io_ret (match r with
                           | Ok p => Ok (Some p)
                           | Raise e => Raise e
                           end)
                 else io_ret (Ok None)
             | None => io_ret (Ok None)
             end) ;;
      match sp with
      | Raise _ => io_ret (None, None)
      | Ok scaler_path =>
          match metadata_file with
          | Some f =>
              if truthy f then
                r <~ download f ;;
                match r with
                | Ok p => io_ret (scaler_path, Some p)
                | Raise _ => io_ret (scaler_path, None)
                end
              else io_ret (scaler_path, None)
          | None => io_ret (scaler_path, None)
          end
      end
  end.

Definition not_found (last_error : option string) : IO Loaded :=
  files <~ list_files ;;
  match files with
  | Ok files =>
      io_ret (Failure ("Model file not found. Available files: "
                         ++ String.concat ", " files
                         ++ ". Last error: " ++ str_opt last_error))
  | Raise _ =>
      io_ret (Failure
                ("Model file not found. Repository may not exist or is private. Last error: "
                   ++ str_opt last_error))
  end%string.

(** The Keras branch once a path ending in [.keras] is in hand. *)
Definition load_keras (model_path : string)
    (scaler_path metadata_path : option string) : IO Loaded :=
  if negb (HAS_TF env) then
    io_ret (Failure ("Keras model detected (" ++ model_path
              ++ ") but TensorFlow is not installed. Please install TensorFlow: pip install tensorflow"))%string
  else
    m <~ emit (KerasLoad model_path) (tf_load_model env model_path) ;;
    match m with
    | Raise e => io_ret (Failure ("Failed to load Keras model: " ++ e))
    | Ok model =>
        metadata <~ (match metadata_path with
                     | Some p =>
                         if truthy p then
                           r <~ emit (JsonLoad p) (json_load env p) ;;
                           io_ret (match r with
                                   | Ok md => Some md
                                   | Raise _ => None
                                   end)
                         else io_ret None
                     | None => io_ret None
                     end) ;;
        scaler <~ (match scaler_path with
                   | Some p =>
                       if truthy p then
                         r <~ emit (PickleLoad p) (pickle_load env p) ;;
                         io_ret (match r with
                                 | Ok sc => Some sc
                                 | Raise _ => None
                                 end)
                       else io_ret None
                   | None => io_ret None
                   end) ;;
        io_ret (Model (KerasTuple model scaler metadata))
    end.

(** The PyTorch branch. *)
Definition load_torch (model_path : string) : IO Loaded :=
  ck <~ emit (TorchLoad model_path) (torch_load env model_path) ;;
  match ck with
  | Raise e =>
      io_ret (Failure ("Architecture mismatch or load error: " ++ e))
  | Ok state_dict =>
      let state_dict := unwrap_state_dict state_dict in
      m <~ emit LoadStateDict (load_state_dict env state_dict) ;;
      match m with
      | Raise e =>
          io_ret (Failure ("Architecture mismatch or load error: " ++ e))
      | Ok forward => io_ret (Model (TorchModule forward))
      end
  end.

Definition dispatch (model_path : string)
    (scaler_path metadata_path : option string) : IO Loaded :=
  if truthy model_path && endswith ".keras" model_path
  then load_keras model_path scaler_path metadata_path
  else load_torch model_path.

Definition load_model : IO Loaded :=
  _ <~ list_files ;;
  found <~ try_candidates possible_filenames None ;;
  let (model_path, last_error) := found in
  match model_path with
  | Some path => dispatch path None None
  | None =>
      found <~ try_candidates keras_files last_error ;;
      let (model_path, last_error) := found in
      model_path <~ (match model_path with
                     | None => find_any_keras
                     | Some _ => io_ret model_path
                     end) ;;
      companions <~ (if path_truthy model_path then find_companions
                     else io_ret (None, None)) ;;
      let (scaler_path, metadata_path) := companions in
      match model_path with
      | None => not_found last_error
      | Some path => dispatch path scaler_path metadata_path
      end
  end.

End Resolver.


(** *** The program *)

(** A run of Program B: what it printed, its exit status, the calls it
    made to the hub and the loaders, and the tensors it gave the
    network. *)
Record Trace : Type := {
  process : Process float;
  events : list Event;
  inference_calls : list Tensor
}.

Definition quiet (p : Process float) : Trace :=
  {| process := p; events := []; inference_calls := [] |}.

Definition main (env : Env) (prices_arg : string) (steps : Z) : Trace :=
  match parse_tokens (py_float env) (split_comma prices_arg) with
  | None => quiet (error_exit "Invalid price format")
  | Some prices =>
      if (length prices <? SEQUENCE_LENGTH)%nat then
        quiet (error_exit ("Need at least " ++ str_of_nat SEQUENCE_LENGTH
                             ++ " price points"))
      else
        let (log, loaded) := load_model env in
        match loaded with
        | Failure err =>
            {| process := error_exit err; events := log;
               inference_calls := [] |}
        | Model model =>
            let run :=
              predict (np_mean env) (np_std env) (HAS_TF env)
                      model prices steps in
            {| process :=
                 match outcome run with
                 | Ok preds =>
                     {| stdout :=
                          [JObject
                             [("prediction"%string, JArray preds);
                              ("last_price"%string,
                               JNumber (last prices nan))]];
                        exit_status := 0 |}
                 | Raise e => error_exit ("Prediction error: " ++ e)
                 end;
               events := log;
               inference_calls := calls run |}
        end
  end.


(** *** Vocabulary of the statements *)

(** The function [predict] calls for inference on a handle. *)
Definition network (HAS_TF : bool) (model : ModelHandle)
    : Tensor -> Res float :=
  match HAS_TF, model with
  | true, KerasTuple keras_model _ _ => keras_predict keras_model
  | _, _ => call_module model
  end.

(** Whether [predict] takes the 6-channel branch on a handle. *)
Definition six_channel_path (HAS_TF : bool) (model : ModelHandle) : bool :=
  match HAS_TF, model with
  | true, KerasTuple keras_model _ _ =>
      six_channels (input_shape keras_model)
  | _, _ => false
  end.

(** The storage type of the step appended to the window. *)
Definition storage (HAS_TF : bool) (model : ModelHandle)
    : float -> float :=
  match HAS_TF, model with
  | true, KerasTuple _ _ _ => fun x => x
  | _, _ => to_float32
  end.

Definition scaler_of (model : ModelHandle) : option Scaler :=
  match model with
  | KerasTuple _ scaler _ => scaler
  | TorchModule _ => None
  end.

(** A handle is inference-capable when its network answers every call
    and its scaler, if any, returns as many rows as it is given. *)
Definition inference_capable (HAS_TF : bool) (model : ModelHandle)
    : Prop :=
  (forall x, exists v, network HAS_TF model x = Ok v)
  /\ (forall transform x y,
         scaler_of model = Some transform ->
         transform x = Ok y -> length y = length x).




(** The path a candidate list resolves to: that of the first name the
    hub serves. *)
Definition found_by_name (env : Env) (filenames : list string)
    : option string :=
  match find (fun f => is_ok (hf_hub_download env f)) filenames with
  | Some f =>
      match hf_hub_download env f with
      | Ok path => Some path
      | Raise _ => None
      end
  | None => None
  end.

(** The path the search of the listing for a [.keras] file resolves
    to. *)
Definition found_by_listing (env : Env) : option string :=
  snd (find_any_keras env).

(** Two results of [load_model] that differ at most in the scaler and
    the metadata of a Keras tuple. *)
Definition same_up_to_companions (a b : Loaded) : Prop :=
  match a, b with
  | Failure e, Failure e' => e = e'
  | Model (TorchModule f), Model (TorchModule f') => f = f'
  | Model (KerasTuple m _ _), Model (KerasTuple m' _ _) => m = m'
  | _, _ => False
  end.

Definition path_of_download (r : Res string) : option string :=
  match r with Ok p => Some p | Raise _ => None end.

End LstmValidate.

(** ** Program A: [chronos_predict.py] *)

Module ChronosPredict.

Section Program.

(** The element type of the tensors of the pipeline, its order, and
    [torch.lerp a b w] for a weight [w = k/d]: the arithmetic of the
    tensor runtime is received, not fixed. *)
Variable T : Type.
Variable leb : T -> T -> bool.
Variable lerp : T -> T -> nat -> nat -> T.
Variable dflt : T.

(** The pretrained pipeline: [from_pretrained] gives it or raises, and
    its [predict context prediction_length num_samples] gives
    [forecast[0]], one row per sample, or raises. *)
Definition Pipeline : Type := list T -> Z -> nat -> Res (list (list T)).

Record Env : Type := {
  py_float : string -> option T;
  from_pretrained : Res Pipeline
}.

Fixpoint insert (x : T) (l : list T) : list T :=
  match l with
  | [] => [x]
  | y :: l' => if leb x y then x :: l else y :: insert x l'
  end.

Fixpoint sort (l : list T) : list T :=
  match l with
  | [] => []
  | x :: l' => insert x (sort l')
  end.

(** The quantile [qn/qd] of one column by linear interpolation: with
    [n] values the rank is [q * (n - 1)], and the result is the
    interpolation, at the fractional part of the rank, between the sorted
    values at the floor and at the ceiling of the rank. *)
Definition quantile_1d (col : list T) (qn qd : nat) : T :=
  let sorted := sort col in
  let rank := qn * (length col - 1) in
  let below := rank / qd in
  let above := if rank mod qd =? 0 then below else S below in
  lerp (nth below sorted dflt) (nth above sorted dflt) (rank mod qd) qd.

Definition columns (m : list (list T)) : list (list T) :=
  map (fun j => map (fun row => nth j row dflt) m)
      (seq 0 (length (hd [] m))).

(** [samples.numel()] of a tensor of shape (rows, columns). *)
Definition numel (samples : list (list T)) : nat :=
  length samples * length (hd [] samples).

(** [torch.quantile(samples, q, dim=0)] for one [q]: a row with one
    entry per column; a tensor without elements, be it for want of rows or
    of columns, raises. *)
Definition quantile_dim0 (samples : list (list T)) (qn qd : nat)
    : Res (list T) :=
  if numel samples =? 0
  then Raise "quantile() input tensor must be non-empty"
  else Ok (map (fun col => quantile_1d col qn qd) (columns samples)).

Definition NUM_SAMPLES : nat := 20.

Definition main (env : Env) (prices_arg : string) (steps : Z)
    : Process T * bool :=
  match parse_tokens (py_float env) (split_comma prices_arg) with
  | None => (error_exit "Invalid price format", false)
  | Some prices =>
      let context := prices in
      match from_pretrained env with
      | Raise e => (error_exit ("Failed to load model: " ++ e), true)
      | Ok pipeline =>
          let result :=
            match pipeline context steps NUM_SAMPLES with
            | Raise e => Raise e
            | Ok forecast =>
                match quantile_dim0 forecast 1 10,
                      quantile_dim0 forecast 5 10,
                      quantile_dim0 forecast 9 10 with
                | Ok low, Ok median, Ok high =>
                    Ok [JObject
                          [("prediction"%string, JArray median);
                           ("lower_bound"%string, JArray low);
                           ("upper_bound"%string, JArray high)]]
                | Raise e, _, _ | _, Raise e, _ | _, _, Raise e =>
                    Raise e
                end
            end in
          (match result with
           | Ok out => {| stdout := out; exit_status := 0 |}
           | Raise e => error_exit ("Prediction failed: " ++ e)
           end, true)
      end
  end.

(** The second component of [main] tells whether the run reached
    [from_pretrained]. *)
Definition load_attempted (r : Process T * bool) : bool := snd r.



End Program.

End ChronosPredict.

(** ** Concrete collaborators for the examples *)

Module Examples.

Import Num LstmValidate.
Local Open Scope float_scope.

Definition float_of_nat (n : nat) : float :=
  of_uint63 (Uint63.of_Z (Z.of_nat n)).

(** The prices 1, 2, ..., 60. *)
Definition prices_1_to_60 : list float := map float_of_nat (seq 1 60).

(** A network that answers 0.5 to every call. *)
Definition half_stub : Tensor -> Res float := fun _ => Ok 0.5.

Definition torch_half : ModelHandle := TorchModule half_stub.

Definition keras_half (channels : Z) : ModelHandle :=
  KerasTuple {| input_shape := [None; Some 60%Z; Some channels];
                keras_predict := half_stub |}
             None None.

Fixpoint digits_value (s : string) (acc : nat) : option nat :=
  match s with
  | EmptyString => Some acc
  | String c rest =>
      let n := nat_of_ascii c in
      if ((48 <=? n) && (n <=? 57))%nat
      then digits_value rest (10 * acc + (n - 48))
      else None
  end.

(** A stand-in for [float] that reads unsigned decimal integers and
    rejects everything else. *)
Definition decimal_float (s : string) : option float :=
  match s with
  | EmptyString => None
  | _ => option_map float_of_nat (digits_value s 0)
  end.

(** A hub that holds a PyTorch checkpoint next to a scaler and a
    metadata file, and serves every file it lists. *)
Definition torch_repo : list string :=
  ["model.pth"; "scaler.pkl"; "metadata.json"]%string.

Definition serve (files : list string) (filename : string) : Res string :=
  if existsb (String.eqb filename) files
  then Ok ("/cache/" ++ filename)%string
  else Raise ("404 Client Error: " ++ filename)%string.

Definition torch_env : Env :=
  {| list_repo_files := Ok torch_repo;
     hf_hub_download := serve torch_repo;
     HAS_TF := true;
     tf_load_model := fun _ => Raise "not a Keras archive";
     json_load := fun _ => Ok "{}"%string;
     pickle_load := fun _ => Ok (fun features => Ok features);
     torch_load := fun _ => Ok (CkDict [("state_dict"%string,
                                         CkObject "weights")]);
     load_state_dict := fun _ => Ok half_stub;
     py_float := decimal_float;
     np_mean := seq_mean;
     np_std := seq_mean |}.

(** A hub that holds a Keras archive under a name outside the candidate
    lists, with its two companions. *)
Definition keras_repo : list string :=
  ["README.md"; "final.keras"; "Feature_Scaler.pkl";
   "model_metadata.json"]%string.

Definition keras_env : Env :=
  {| list_repo_files := Ok keras_repo;
     hf_hub_download := serve keras_repo;
     HAS_TF := true;
     tf_load_model := fun _ =>
       Ok {| input_shape := [None; Some 60%Z; Some 6%Z];
             keras_predict := half_stub |};
     json_load := fun _ => Ok "{}"%string;
     pickle_load := fun _ => Raise "unsupported pickle protocol";
     torch_load := fun _ => Raise "invalid load key";
     load_state_dict := fun _ => Ok half_stub;
     py_float := decimal_float;
     np_mean := seq_mean;
     np_std := seq_mean |}.

(** The text [1,2,...,n]. *)
Definition count_to (n : nat) : string :=
  String.concat "," (map str_of_nat (seq 1 n)).

(** The arithmetic of Program A in the examples: binary64 numbers, with
    the linear interpolation [a + (b - a) * fraction] for the fraction
    [k / d]. *)
Definition float_lerp (a b : float) (k d : nat) : float :=
  a + (b - a) * (float_of_nat k / float_of_nat d).

(** Program A with a hub that is offline. *)
Definition offline_env : ChronosPredict.Env float :=
  {| ChronosPredict.py_float := decimal_float;
     ChronosPredict.from_pretrained := Raise "Connection error" |}.








End Examples.

(** ** Vocabulary and collaborators for the further properties *)

Module Further.

Import Num LstmValidate Examples.

(** A run of [n] steps on the network [net], entered with [m]
    predictions in hand: every tensor handed to the network satisfies
    [shape], and the run either returns [m + n] predictions after [n]
    answered calls, or stops at the first call that raises, with the
    message of that call. *)
Definition trace_from (net : Tensor -> Res float) (shape : Tensor -> Prop)
    (m n : nat) (run : Run (list float)) : Prop :=
  Forall shape (calls run)
  /\ match outcome run with
     | Ok preds =>
         length preds = m + n
         /\ length (calls run) = n
         /\ Forall (fun w => is_ok (net w) = true) (calls run)
     | Raise e =>
         exists before w,
           calls run = before ++ [w]
           /\ net w = Raise e
           /\ Forall (fun x => is_ok (net x) = true) before
           /\ length before < n
     end.

(** The calls of the resolver to the hub, as opposed to its calls to the
    loaders of model, scaler and metadata files. *)
Definition hub_event (e : Event) : bool :=
  match e with
  | ListRepoFiles | HubDownload _ => true
  | _ => false
  end.

(** A network that answers 0.5 until the window ends with a 0.5, and then
    raises. *)
Definition moody_stub : Tensor -> Res float :=
  fun w =>
    match last w [] with
    | [x] =>
        if PrimFloat.eqb x 0.5 then Raise "CUDA out of memory"
        else Ok 0.5%float
    | _ => Ok 0.5%float
    end.

(** A hub that serves nothing and whose listing is down. *)
Definition dark_env : Env :=
  {| list_repo_files := Raise "503 Service Unavailable";
     hf_hub_download := fun f => Raise ("404 Client Error: " ++ f)%string;
     HAS_TF := false;
     tf_load_model := fun _ => Raise "not a Keras archive";
     json_load := fun _ => Raise "no such file";
     pickle_load := fun _ => Raise "no such file";
     torch_load := fun _ => Raise "no such file";
     load_state_dict := fun _ => Ok half_stub;
     py_float := decimal_float;
     np_mean := seq_mean;
     np_std := seq_mean |}.

(** The event of opening a companion file, when there is one to open. *)
Definition opened (load : string -> Event) (p : option string)
    : list Event :=
  match p with
  | Some file => if truthy file then [load file] else []
  | None => []
  end.

(** A companion loaded best-effort: absent when there is no file or when
    its loader raises. *)
Definition best_effort {A} (load : string -> Res A) (p : option string)
    : option A :=
  match p with
  | Some file =>
      if truthy file
      then match load file with Ok a => Some a | Raise _ => None end
      else None
  | None => None
  end.

(** The hub of [keras_env], on a machine without TensorFlow. *)
Definition no_tf_env : Env :=
  {| list_repo_files := list_repo_files keras_env;
     hf_hub_download := hf_hub_download keras_env;
     HAS_TF := false;
     tf_load_model := tf_load_model keras_env;
     json_load := json_load keras_env;
     pickle_load := pickle_load keras_env;
     torch_load := torch_load keras_env;
     load_state_dict := load_state_dict keras_env;
     py_float := py_float keras_env;
     np_mean := np_mean keras_env;
     np_std := np_std keras_env |}.

End Further.

(** * Properties *)

Import Num LstmValidate Examples.

(** ** Lists and the two effects *)


Lemma last_n_app {A} (pre w : list A) :
  last_n (length w) (pre ++ w) = w.
Proof.
  unfold last_n. rewrite length_app.
  replace (length pre + length w - length w) with (length pre) by lia.
  rewrite skipn_app, skipn_all, Nat.sub_diag. reflexivity.
Qed.

Lemma flatten_reshape_col (a : list float) : flatten (reshape_col a) = a.
Proof.
  unfold flatten, reshape_col.
  induction a as [|x a IH]; simpl; [reflexivity | now rewrite IH].
Qed.


Lemma np_min_nonempty (a : list float) :
  a <> [] -> exists m, np_min a = Ok m.
Proof. destruct a; [congruence | intros _; eexists; reflexivity]. Qed.

Lemma np_max_nonempty (a : list float) :
  a <> [] -> exists m, np_max a = Ok m.
Proof. destruct a; [congruence | intros _; eexists; reflexivity]. Qed.

Lemma bind_infer_ok {B} net x v (k : float -> Run B) :
  net x = Ok v ->
  bind (infer net x) k = (x :: calls (k v), outcome (k v)).
Proof.
  intros H. unfold bind, infer. rewrite H.
  destruct (k v) as [log r]. reflexivity.
Qed.

Lemma bind_lift_ok {A B} (a : A) (k : A -> Run B) :
  bind (lift (Ok a)) k = k a.
Proof. unfold bind, lift. destruct (k a). reflexivity. Qed.

Lemma slid_length (x : Tensor) (row : list float) :
  length x <> 0 -> length (tl x ++ [row]) = length x.
Proof.
  destruct x; simpl; [congruence | intros _].
  rewrite length_app. simpl. lia.
Qed.

(** ** The sliding-window loops *)

Section Loops.

Variables (net : Tensor -> Res float) (cast : float -> float).
Variables (scale min_val : float) (rows : nat).
Hypothesis window : rows <> 0.
Hypothesis answers : forall x, length x = rows -> exists v, net x = Ok v.


End Loops.

Section SixChannels.

Variables (np_mean np_std : list float -> float).
Variable scaler : option Scaler.
Hypothesis same_rows : forall transform x y,
  scaler = Some transform -> transform x = Ok y -> length y = length x.

Lemma synth_features_length (cs : list float) :
  length (synth_features np_mean cs) = length cs.
Proof. unfold synth_features. now rewrite length_map, length_seq. Qed.

Lemma standardize_length (features : Tensor) :
  length (standardize np_mean np_std features) = length features.
Proof. unfold standardize. apply length_map. Qed.

Lemma normalize_features_length (features : Tensor) :
  length (normalize_features np_mean np_std scaler features)
  = length features.
Proof.
  unfold normalize_features.
  destruct scaler as [transform|] eqn:E; [|apply standardize_length].
  destruct (transform features) eqn:Et; [|apply standardize_length].
  eapply same_rows; eauto.
Qed.

End SixChannels.

Section Recomputed.

Variables (np_mean np_std : list float -> float).
Variables (km : KerasModel) (scaler : option Scaler) (rows : nat).
Hypothesis window : rows <> 0.
Hypothesis answers :
  forall x, length x = rows -> exists v, keras_predict km x = Ok v.
Hypothesis keeps_rows : forall transform x y,
  scaler = Some transform -> length x = rows ->
  transform x = Ok y -> length y = rows.



End Recomputed.

(** ** The autoregressive forecaster *)




Lemma half_stub_capable (HAS_TF : bool) :
  inference_capable HAS_TF torch_half.
Proof.
  split.
  - intros x. exists 0.5%float. now destruct HAS_TF.
  - intros transform x y H. discriminate H.
Qed.




(** C9.  The forecast depends on the last 60 prices only: two price lists
    that end with the same 60 values give the same run of [predict], the
    same predictions and the same inference calls, whatever precedes those
    60 values. *)
Theorem predict_last_60_only :
  forall np_mean np_std HAS_TF model (before before' window : list float)
         steps,
    length window = 60 ->
    predict np_mean np_std HAS_TF model (before ++ window) steps
    = predict np_mean np_std HAS_TF model (before' ++ window) steps.
Proof.
  intros np_mean np_std HAS_TF model before before' window steps Hw.
  unfold predict, SEQUENCE_LENGTH. rewrite <- Hw, !last_n_app.
  reflexivity.
Qed.

Lemma predict_last_60_only_witness :
  predict seq_mean seq_mean false torch_half
          ([7; 8; 9]%float ++ prices_1_to_60) 2
  = predict seq_mean seq_mean false torch_half
            ([100]%float ++ prices_1_to_60) 2.
Proof.
  apply (@predict_last_60_only seq_mean seq_mean false torch_half
           [7; 8; 9]%float [100]%float prices_1_to_60 2%Z).
  reflexivity.
Defined.

(** ** The program around the forecaster *)

Lemma predict_no_steps :
  forall np_mean np_std HAS_TF model prices steps,
    prices <> [] -> (steps <= 0)%Z ->
    predict np_mean np_std HAS_TF model prices steps = ([], Ok []).
Proof.
  intros np_mean np_std HAS_TF model prices steps Hne Hsteps.
  assert (Hw : last_n SEQUENCE_LENGTH prices <> []).
  { unfold last_n. intros E. apply (f_equal (@length float)) in E.
    rewrite length_skipn in E. unfold SEQUENCE_LENGTH in E.
    destruct prices; [congruence | cbn [length] in E; lia]. }
  destruct (np_min_nonempty Hw) as [mn Hmn].
  destruct (np_max_nonempty Hw) as [mx Hmx].
  unfold predict. replace (Z.to_nat steps) with 0 by lia.
  destruct HAS_TF, model as [forward | keras_model scaler metadata];
    try destruct (six_channels (input_shape keras_model));
    cbn [keras6_loop];
    rewrite ?flatten_reshape_col, ?Hmn, ?Hmx, ?bind_lift_ok;
    reflexivity.
Qed.

(** C10.  When [--steps] is zero or negative, [predict] returns the empty
    list without calling the network and without raising, for every handle;
    Program B, once the prices parse, count at least 60 and the model
    loads, prints the success object with an empty [prediction] and the
    last price, and exits with status 0. *)
Theorem nonpositive_steps_succeed :
  forall env prices_arg steps prices log model,
    parse_tokens (py_float env) (split_comma prices_arg) = Some prices ->
    60 <= length prices ->
    load_model env = (log, Model model) ->
    (steps <= 0)%Z ->
    predict (np_mean env) (np_std env) (HAS_TF env) model prices steps
    = ([], Ok [])
    /\ main env prices_arg steps
       = {| process :=
              {| stdout :=
                   [JObject [("prediction"%string, JArray []);
                             ("last_price"%string,
                              JNumber (last prices nan))]];
                 exit_status := 0 |};
            events := log;
            inference_calls := [] |}.
Proof.
  intros env prices_arg steps prices log model Hparse Hlen Hload Hsteps.
  assert (Hrun :
    predict (np_mean env) (np_std env) (HAS_TF env) model prices steps
    = ([], Ok [])).
  { apply predict_no_steps; [|exact Hsteps].
    intros E. rewrite E in Hlen. simpl in Hlen. lia. }
  split; [exact Hrun|].
  unfold main. rewrite Hparse.
  replace (length prices <? SEQUENCE_LENGTH) with false
    by (symmetry; apply Nat.ltb_ge; exact Hlen).
  rewrite Hload, Hrun. reflexivity.
Qed.

Lemma nonpositive_steps_succeed_witness :
  predict seq_mean seq_mean true torch_half prices_1_to_60 (-4)
  = ([], Ok [])
  /\ main torch_env (count_to 60) (-4)
     = {| process :=
            {| stdout :=
                 [JObject [("prediction"%string, JArray []);
                           ("last_price"%string,
                            JNumber (last prices_1_to_60 nan))]];
               exit_status := 0 |};
          events := fst (load_model torch_env);
          inference_calls := [] |}.
Proof.
  apply (@nonpositive_steps_succeed torch_env (count_to 60) (-4)%Z
           prices_1_to_60 (fst (load_model torch_env)) torch_half).
  - vm_compute. reflexivity.
  - vm_compute. lia.
  - reflexivity.
  - lia.
Defined.

(** C7.  Whatever [--steps] is, when the prices parse to fewer than 60
    values Program B prints the error object naming the 60-point
    requirement, exits with status 1, and has made no call to the hub, to a
    loader or to a network. *)
Theorem short_series_rejected :
  forall env prices_arg steps prices,
    parse_tokens (py_float env) (split_comma prices_arg) = Some prices ->
    length prices < 60 ->
    let run := main env prices_arg steps in
    stdout (process run)
    = [JObject [("error"%string,
                 JString "Need at least 60 price points")]]
    /\ exit_status (process run) = 1%Z
    /\ events run = []
    /\ inference_calls run = [].
Proof.
  intros env prices_arg steps prices Hparse Hlen run.
  unfold run, main. rewrite Hparse.
  replace (length prices <? SEQUENCE_LENGTH) with true
    by (symmetry; apply Nat.ltb_lt; exact Hlen).
  repeat split.
Qed.

Lemma short_series_rejected_witness :
  let run := main torch_env (count_to 59) 5 in
  stdout (process run)
  = [JObject [("error"%string, JString "Need at least 60 price points")]]
  /\ exit_status (process run) = 1%Z
  /\ events run = []
  /\ inference_calls run = [].
Proof.
  apply (@short_series_rejected torch_env (count_to 59) 5%Z
           (map float_of_nat (seq 1 59))).
  - vm_compute. reflexivity.
  - vm_compute. lia.
Defined.

Lemma parse_tokens_bad {N} (py : string -> option N) (tokens : list string) :
  (exists tok, In tok tokens /\ py tok = None) ->
  parse_tokens py tokens = None.
Proof.
  intros (tok & Hin & Hbad).
  induction tokens as [|t rest IH]; [contradiction|].
  simpl. destruct Hin as [-> | Hin].
  - now rewrite Hbad.
  - destruct (py t); [|reflexivity]. now rewrite IH.
Qed.

(** C8.  When some comma-separated token of [--prices] is no number, each
    of the two programs prints the object [{"error": "Invalid price
    format"}], exits with status 1, and never reaches its model loading:
    Program B has made no call to the hub, to a loader or to a network, and
    Program A has not called [from_pretrained]. *)
Theorem invalid_price_format :
  forall (T : Type) leb lerp dflt (envA : ChronosPredict.Env T)
         (envB : Env) prices_arg stepsA stepsB,
    (exists tok, In tok (split_comma prices_arg)
                 /\ ChronosPredict.py_float envA tok = None) ->
    (exists tok, In tok (split_comma prices_arg)
                 /\ py_float envB tok = None) ->
    ChronosPredict.main leb lerp dflt envA prices_arg stepsA
    = ({| stdout := [JObject [("error"%string,
                               JString "Invalid price format")]];
          exit_status := 1 |}, false)
    /\ main envB prices_arg stepsB
       = {| process :=
              {| stdout := [JObject [("error"%string,
                                      JString "Invalid price format")]];
                 exit_status := 1 |};
            events := [];
            inference_calls := [] |}.
Proof.
  intros T leb lerp dflt envA envB prices_arg stepsA stepsB HA HB.
  unfold ChronosPredict.main, main.
  rewrite (parse_tokens_bad _ _ HA), (parse_tokens_bad _ _ HB).
  split; reflexivity.
Qed.

Lemma invalid_price_format_witness :
  ChronosPredict.main PrimFloat.leb float_lerp nan offline_env "1,x,3" 10
  = ({| stdout := [JObject [("error"%string,
                             JString "Invalid price format")]];
        exit_status := 1 |}, false)
  /\ main torch_env "1,x,3" 5
     = {| process :=
            {| stdout := [JObject [("error"%string,
                                    JString "Invalid price format")]];
               exit_status := 1 |};
          events := [];
          inference_calls := [] |}.
Proof.
  apply (@invalid_price_format float PrimFloat.leb float_lerp nan
           offline_env torch_env "1,x,3" 10%Z 5%Z).
  - exists "x"%string. split; [vm_compute; tauto | reflexivity].
  - exists "x"%string. split; [vm_compute; tauto | reflexivity].
Defined.

(** ** Fixed normalization on the single-feature branches *)

Section ConstantNetwork.

Variables (net : Tensor -> Res float) (cast : float -> float).
Variables (scale min_val v : float).
Hypothesis constant : forall x, net x = Ok v.

(** With a network that always answers [v], every step of the loop
    appends [v * scale + min_val], for the [scale] and [min_val] the loop
    was entered with. *)
Lemma single_loop_constant :
  forall n input predictions,
    outcome (single_loop net cast scale min_val n input predictions)
    = Ok (predictions ++ repeat (v * scale + min_val)%float n).
Proof.
  induction n as [|n IH]; intros input predictions.
  - simpl. now rewrite app_nil_r.
  - cbn [single_loop]. rewrite (bind_infer_ok _ _ _ (constant input)).
    unfold outcome in *. cbn [snd]. rewrite IH, <- app_assoc.
    reflexivity.
Qed.

End ConstantNetwork.

Lemma window_1_to_60 : last_n SEQUENCE_LENGTH prices_1_to_60 = prices_1_to_60.
Proof. reflexivity. Qed.

Lemma min_1_to_60 : np_min prices_1_to_60 = Ok 1%float.
Proof. vm_compute. reflexivity. Qed.

Lemma max_1_to_60 : np_max prices_1_to_60 = Ok 60%float.
Proof. vm_compute. reflexivity. Qed.

(** C3.  On the single-feature branches, for the prices 1, 2, ..., 60 and
    3 steps, a network that answers 0.5 to every call gives three
    predictions, each equal to [0.5 * scale + min] for the [min = 1] and
    [scale = 60 - 1] of the initial window, that is 30.5 each: the
    normalization is computed once and kept through the loop. *)
Theorem half_stub_three_steps :
  forall np_mean np_std HAS_TF model,
    six_channel_path HAS_TF model = false ->
    (forall x, network HAS_TF model x = Ok 0.5%float) ->
    np_min (last_n SEQUENCE_LENGTH prices_1_to_60) = Ok 1%float
    /\ np_max (last_n SEQUENCE_LENGTH prices_1_to_60) = Ok 60%float
    /\ outcome (predict np_mean np_std HAS_TF model prices_1_to_60 3)
       = Ok (repeat (0.5 * (60 - 1) + 1)%float 3)
    /\ (0.5 * (60 - 1) + 1 = 30.5)%float.
Proof.
  intros np_mean np_std HAS_TF model Hpath Hnet.
  rewrite window_1_to_60.
  split; [exact min_1_to_60|]. split; [exact max_1_to_60|].
  split; [|reflexivity].
  unfold predict. rewrite window_1_to_60.
  destruct HAS_TF, model as [forward | keras_model scaler metadata];
    cbn [network six_channel_path call_module] in *;
    try rewrite Hpath;
    rewrite flatten_reshape_col, min_1_to_60, max_1_to_60, !bind_lift_ok;
    rewrite (single_loop_constant _ _ _ _ Hnet);
    reflexivity.
Qed.

Lemma half_stub_three_steps_witness :
  np_min (last_n SEQUENCE_LENGTH prices_1_to_60) = Ok 1%float
  /\ np_max (last_n SEQUENCE_LENGTH prices_1_to_60) = Ok 60%float
  /\ outcome (predict seq_mean seq_mean true (keras_half 1) prices_1_to_60 3)
     = Ok (repeat (0.5 * (60 - 1) + 1)%float 3)
  /\ (0.5 * (60 - 1) + 1 = 30.5)%float.
Proof.
  apply (@half_stub_three_steps seq_mean seq_mean true (keras_half 1)).
  - reflexivity.
  - intros x. reflexivity.
Defined.

(** ** The synthesized features of the 6-channel branch *)

Lemma synth_features_row np_mean (cs : list float) (i : nat) :
  i < length cs ->
  nth i (synth_features np_mean cs) [] = feature_row np_mean cs i.
Proof.
  intros Hi. unfold synth_features.
  rewrite (nth_indep _ [] (feature_row np_mean cs 0))
    by now rewrite length_map, length_seq.
  rewrite map_nth, seq_nth by exact Hi. reflexivity.
Qed.

Lemma py_slice_length {A} (lo hi : nat) (l : list A) :
  hi <= length l -> length (py_slice lo hi l) = hi - lo.
Proof.
  intros H. unfold py_slice. rewrite length_firstn, length_skipn. lia.
Qed.

Lemma py_slice_nth {A} (lo hi k : nat) (l : list A) (d : A) :
  k < hi - lo -> nth k (py_slice lo hi l) d = nth (lo + k) l d.
Proof.
  intros H. unfold py_slice. rewrite nth_firstn, nth_skipn.
  apply Nat.ltb_lt in H. now rewrite H.
Qed.

Lemma moving_average_cases np_mean (span : nat) (cs : list float) (i : nat) :
  (i < span - 1 -> moving_average np_mean span cs i = nth i cs nan)
  /\ (span - 1 <= i ->
      moving_average np_mean span cs i
      = np_mean (py_slice (i - (span - 1)) (i + 1) cs)).
Proof.
  unfold moving_average. split; intros H.
  - apply Nat.leb_gt in H. now rewrite H.
  - apply Nat.leb_le in H. now rewrite H.
Qed.

(** C2, as the code has it.  In the 6-channel branch the 5-, 10- and
    20-step moving averages at timestep [i] are the mean of exactly [span]
    values, those at positions [i - span + 1] to [i], once [span - 1]
    values precede [i]; before that, the feature is the price at [i]
    itself, not a mean over a shorter window. *)
Theorem moving_average_full_span_or_price :
  forall np_mean (cs : list float) (i span c : nat),
    i < length cs ->
    In (span, c) [(5, 2); (10, 3); (20, 4)] ->
    let row := nth i (synth_features np_mean cs) [] in
    let window := py_slice (i - (span - 1)) (i + 1) cs in
    (i < span - 1 -> nth c row nan = nth i cs nan)
    /\ (span - 1 <= i ->
        nth c row nan = np_mean window
        /\ length window = span
        /\ forall k, k < span ->
             nth k window nan = nth (i - (span - 1) + k) cs nan).
Proof.
  intros np_mean cs i span c Hi Hin row window.
  assert (Hrow : nth c row nan = moving_average np_mean span cs i).
  { unfold row. rewrite synth_features_row by exact Hi.
    simpl in Hin.
    destruct Hin as [E | [E | [E | []]]]; injection E as <- <-; reflexivity. }
  assert (Hspan : 0 < span).
  { simpl in Hin.
    destruct Hin as [E | [E | [E | []]]]; injection E as <- <-; lia. }
  rewrite Hrow.
  destruct (moving_average_cases np_mean span cs i) as [Hlt Hge].
  split; [exact Hlt|].
  intros H. split; [now apply Hge|].
  unfold window. split.
  - rewrite py_slice_length by lia. lia.
  - intros k Hk. apply py_slice_nth. lia.
Qed.

Lemma moving_average_full_span_or_price_witness :
  let cs := [1; 3; 5; 7; 9; 11]%float in
  let row := nth 1 (synth_features seq_mean cs) [] in
  let window := py_slice (1 - (5 - 1)) (1 + 1) cs in
  (1 < 5 - 1 -> nth 2 row nan = nth 1 cs nan)
  /\ (5 - 1 <= 1 ->
      nth 2 row nan = seq_mean window
      /\ length window = 5
      /\ forall k, k < 5 ->
           nth k window nan = nth (1 - (5 - 1) + k) cs nan).
Proof.
  apply (@moving_average_full_span_or_price seq_mean
           [1; 3; 5; 7; 9; 11]%float 1 5 2).
  - simpl. lia.
  - simpl. tauto.
Defined.

(** The statement of C2 fails on the code: with the prices 1, 3, 5, ...,
    the 5-step moving average at position 1 is the price 3, while the mean
    of the values from the start of the series through position 1 is 2. *)
Lemma moving_average_not_left_truncated :
  let cs := [1; 3; 5; 7; 9; 11]%float in
  nth 2 (nth 1 (synth_features seq_mean cs) []) nan = 3%float
  /\ seq_mean (py_slice 0 (1 + 1) cs) = 2%float
  /\ nth 2 (nth 1 (synth_features seq_mean cs) []) nan
     <> seq_mean (py_slice 0 (1 + 1) cs).
Proof.
  cbv zeta. split; [reflexivity|]. split; [reflexivity|].
  intros E.
  apply (f_equal (fun x => PrimFloat.eqb x 3)) in E.
  vm_compute in E. discriminate E.
Qed.

(** ** A window of equal prices *)

Lemma fold_min_flat (x : float) (n : nat) :
  fold_left min_step (repeat x n) x = x.
Proof.
  induction n as [|n IH]; [reflexivity|]. simpl.
  replace (min_step x x) with x; [exact IH|].
  unfold min_step. now destruct (_ || _).
Qed.

Lemma fold_max_flat (x : float) (n : nat) :
  fold_left max_step (repeat x n) x = x.
Proof.
  induction n as [|n IH]; [reflexivity|]. simpl.
  replace (max_step x x) with x; [exact IH|].
  unfold max_step. now destruct (_ || _).
Qed.

Lemma scale_of_flat (x : float) :
  PrimFloat.eqb x x = true ->
  scale_or_one x x = 1%float /\ scale_unless_flat x x = 1%float.
Proof.
  intros H. unfold scale_or_one, scale_unless_flat. now rewrite H.
Qed.

Section Denormalize.

Variables (net : Tensor -> Res float) (cast : float -> float).
Variables (scale min_val : float).
Hypothesis answers : forall x, exists v, net x = Ok v.

(** Every prediction of the loop is the answer of the network to the
    window of the same step, multiplied by [scale] and shifted by
    [min_val]. *)
Lemma single_loop_denormalizes :
  forall n input predictions,
    let run := single_loop net cast scale min_val n input predictions in
    exists preds,
      outcome run = Ok (predictions ++ preds)
      /\ Forall2 (fun w p => exists v,
                    net w = Ok v /\ p = (v * scale + min_val)%float)
                 (calls run) preds.
Proof.
  induction n as [|n IH]; intros input predictions; cbn zeta.
  - exists []. simpl. rewrite app_nil_r. auto.
  - destruct (answers input) as [v Hv].
    cbn [single_loop]. rewrite (bind_infer_ok _ _ _ Hv).
    destruct (IH (tl input ++ [[cast v]])
                 (predictions ++ [v * scale + min_val]%float))
      as (preds & Hout & Hall).
    exists ((v * scale + min_val)%float :: preds).
    unfold outcome, calls in *. cbn [fst snd]. split.
    + rewrite Hout, <- app_assoc. reflexivity.
    + constructor; [exists v; auto | exact Hall].
Qed.

End Denormalize.

(** C4, as the code has it.  On the single-feature branches, when the 60
    values of the window all equal a number [x] that is not NaN, the
    minimum and the maximum are [x], the scale is 1.0 on both branches, the
    first window given to the network holds [(x - x) / 1.0] in every row,
    so nothing is divided by zero, and every prediction is [v * 1.0 + x]
    in binary64 arithmetic for the answer [v] of the network at that
    step. *)
Theorem flat_window_scale_is_one :
  forall np_mean np_std HAS_TF model (before : list float) (x : float) steps,
    six_channel_path HAS_TF model = false ->
    (forall w, exists v, network HAS_TF model w = Ok v) ->
    PrimFloat.eqb x x = true ->
    let prices := before ++ repeat x 60 in
    let run := predict np_mean np_std HAS_TF model prices steps in
    np_min (last_n SEQUENCE_LENGTH prices) = Ok x
    /\ np_max (last_n SEQUENCE_LENGTH prices) = Ok x
    /\ scale_or_one x x = 1%float
    /\ scale_unless_flat x x = 1%float
    /\ ((1 <= steps)%Z ->
        hd_error (calls run)
        = Some (repeat [storage HAS_TF model ((x - x) / 1)%float] 60))
    /\ exists preds,
         outcome run = Ok preds
         /\ Forall2 (fun w p => exists v,
                       network HAS_TF model w = Ok v
                       /\ p = (v * 1 + x)%float)
                    (calls run) preds.
Proof.
  intros np_mean np_std HAS_TF model before x steps Hpath Hnet Hx
         prices run.
  assert (Hw : last_n SEQUENCE_LENGTH prices = repeat x 60).
  { unfold prices, SEQUENCE_LENGTH.
    rewrite <- (repeat_length x 60) at 1. apply last_n_app. }
  assert (Hmin : np_min (repeat x 60) = Ok x)
    by (change (repeat x 60) with (x :: repeat x 59); unfold np_min;
        now rewrite fold_min_flat).
  assert (Hmax : np_max (repeat x 60) = Ok x)
    by (change (repeat x 60) with (x :: repeat x 59); unfold np_max;
        now rewrite fold_max_flat).
  destruct (scale_of_flat Hx) as [Hs1 Hs2].
  rewrite Hw. do 4 (split; [assumption|]).
  assert (Hrun : exists cast sc,
    cast = storage HAS_TF model /\ sc = 1%float
    /\ run = single_loop (network HAS_TF model) cast sc x (Z.to_nat steps)
               (repeat [cast ((x - x) / sc)%float] 60) []).
  { exists (storage HAS_TF model), 1%float. split; [reflexivity|].
    split; [reflexivity|].
    unfold run, predict. rewrite Hw.
    destruct HAS_TF, model as [forward | keras_model scaler metadata];
      cbn [network storage six_channel_path call_module] in *;
      try rewrite Hpath;
      rewrite flatten_reshape_col, Hmin, Hmax, !bind_lift_ok,
        ?Hs1, ?Hs2;
      reflexivity. }
  destruct Hrun as (cast & sc & -> & -> & Hrun). rewrite Hrun. split.
  - intros Hsteps.
    destruct (Z.to_nat steps) as [|n] eqn:E; [lia|].
    destruct (Hnet (repeat [storage HAS_TF model ((x - x) / 1)%float] 60))
      as [v Hv].
    cbn [single_loop]. rewrite (bind_infer_ok _ _ _ Hv). reflexivity.
  - destruct (single_loop_denormalizes (network HAS_TF model)
                (storage HAS_TF model) 1%float x Hnet (Z.to_nat steps)
                (repeat [storage HAS_TF model ((x - x) / 1)%float] 60) [])
      as (preds & Hout & Hall).
    exists preds. auto.
Qed.

Lemma flat_window_scale_is_one_witness :
  let prices := [1; 2]%float ++ repeat 100%float 60 in
  let run := predict seq_mean seq_mean false torch_half prices 2 in
  np_min (last_n SEQUENCE_LENGTH prices) = Ok 100%float
  /\ np_max (last_n SEQUENCE_LENGTH prices) = Ok 100%float
  /\ scale_or_one 100 100 = 1%float
  /\ scale_unless_flat 100 100 = 1%float
  /\ ((1 <= 2)%Z ->
      hd_error (calls run)
      = Some (repeat [storage false torch_half ((100 - 100) / 1)%float] 60))
  /\ exists preds,
       outcome run = Ok preds
       /\ Forall2 (fun w p => exists v,
                     network false torch_half w = Ok v
                     /\ p = (v * 1 + 100)%float)
                  (calls run) preds.
Proof.
  apply (@flat_window_scale_is_one seq_mean seq_mean false torch_half
           [1; 2]%float 100%float 2%Z).
  - reflexivity.
  - intros w. exists 0.5%float. reflexivity.
  - reflexivity.
Defined.

(** The statement of C4 fails on the code.  A window of 60 prices all
    equal to infinity has scale 1.0, and a network whose answers are the
    finite number 0.5 gives the predictions [0.5 * 1.0 + inf], which are
    infinite; a window of 60 NaN has a NaN scale, not 1.0. *)
Lemma flat_window_not_always_finite :
  let prices := repeat infinity 60 in
  let run := predict seq_mean seq_mean false torch_half prices 2 in
  np_min prices = Ok infinity
  /\ np_max prices = Ok infinity
  /\ scale_or_one infinity infinity = 1%float
  /\ is_finite 0.5 = true
  /\ outcome run = Ok [infinity; infinity]
  /\ is_finite infinity = false
  /\ np_min (repeat nan 60) = Ok nan
  /\ np_max (repeat nan 60) = Ok nan
  /\ is_nan (scale_or_one nan nan) = true.
Proof.
  cbv zeta. repeat split; vm_compute; reflexivity.
Qed.

(** ** The model resolver *)

Lemma io_bind_fst {A B} (m : IO A) (k : A -> IO B) :
  fst (io_bind m k) = fst m ++ fst (k (snd m)).
Proof.
  unfold io_bind. destruct m as [log a]. simpl.
  now destruct (k a).
Qed.

Lemma io_bind_snd {A B} (m : IO A) (k : A -> IO B) :
  snd (io_bind m k) = snd (k (snd m)).
Proof.
  unfold io_bind. destruct m as [log a]. simpl.
  now destruct (k a).
Qed.

Lemma endswith_truthy (suffix s : string) :
  truthy suffix = true -> endswith suffix s = true -> truthy s = true.
Proof.
  intros Hs H. unfold endswith in H. apply andb_prop in H as [H _].
  apply Nat.leb_le in H.
  destruct s; [|reflexivity]. destruct suffix; [discriminate|].
  simpl in H. lia.
Qed.

Lemma try_candidates_found (env : Env) (filenames : list string) :
  forall last_error,
    fst (snd (try_candidates env filenames last_error))
    = found_by_name env filenames.
Proof.
  unfold found_by_name.
  induction filenames as [|f rest IH]; intros last_error; [reflexivity|].
  cbn [try_candidates find]. rewrite io_bind_snd. unfold download, emit.
  cbn [snd]. destruct (hf_hub_download env f) as [path|e] eqn:E.
  - cbn [is_ok]. rewrite E. reflexivity.
  - cbn [is_ok]. apply IH.
Qed.

Lemma dispatch_same (env : Env) (path : string) (sp mp : option string) :
  same_up_to_companions (snd (dispatch env path sp mp))
                        (snd (dispatch env path None None)).
Proof.
  unfold dispatch.
  destruct (truthy path && endswith ".keras" path).
  - unfold load_keras. destruct (negb (HAS_TF env)); [reflexivity|].
    rewrite !io_bind_snd. unfold emit. cbn [snd].
    destruct (tf_load_model env path) as [km|e]; [|reflexivity].
    rewrite !io_bind_snd. reflexivity.
  - unfold load_torch. rewrite !io_bind_snd. unfold emit. cbn [snd].
    destruct (torch_load env path) as [ck|e]; [|reflexivity].
    rewrite !io_bind_snd. cbn [snd].
    destruct (load_state_dict env (unwrap_state_dict ck)); reflexivity.
Qed.

Lemma load_model_keras_branch (env : Env) (path : string) :
  found_by_name env possible_filenames = None ->
  (found_by_name env keras_files = Some path
   \/ (found_by_name env keras_files = None
       /\ found_by_listing env = Some path)) ->
  truthy path = true ->
  (exists before after,
      fst (load_model env)
      = before ++ fst (find_companions env) ++ after)
  /\ snd (load_model env)
     = snd (dispatch env path (fst (snd (find_companions env)))
                     (snd (snd (find_companions env)))).
Proof.
  intros Hnative Halt Htruthy.
  unfold load_model.
  rewrite io_bind_fst, io_bind_snd, io_bind_fst, io_bind_snd.
  pose proof (try_candidates_found env possible_filenames None) as H1.
  rewrite Hnative in H1.
  destruct (try_candidates env possible_filenames None)
    as [log1 [mp1 le1]]. cbn [fst snd] in *. subst mp1.
  rewrite io_bind_fst, io_bind_snd.
  pose proof (try_candidates_found env keras_files le1) as H2.
  destruct (try_candidates env keras_files le1) as [log2 [mp2 le2]].
  cbn [fst snd] in *.
  set (resolve := match mp2 with
                  | Some _ => io_ret mp2
                  | None => find_any_keras env
                  end).
  assert (Hres : snd resolve = Some path).
  { unfold resolve. destruct Halt as [Hk | [Hk Hl]]; rewrite Hk in H2;
      subst mp2; [reflexivity | exact Hl]. }
  rewrite io_bind_fst, io_bind_snd, Hres.
  cbn [path_truthy]. rewrite Htruthy.
  rewrite io_bind_fst, io_bind_snd.
  destruct (find_companions env) as [logc [sp mp]]. cbn [fst snd].
  split; [|reflexivity].
  exists (fst (list_files env) ++ log1 ++ log2 ++ fst resolve),
         (fst (dispatch env path sp mp)).
  now rewrite <- !app_assoc.
Qed.

Lemma scaler_file_truthy (files : list string) (f : string) :
  find is_scaler_file files = Some f -> truthy f = true.
Proof.
  intros H. apply find_some in H as [_ H].
  unfold is_scaler_file in H. apply andb_prop in H as [_ H].
  now apply (endswith_truthy ".pkl").
Qed.

Lemma metadata_file_truthy (files : list string) (g : string) :
  find is_metadata_file files = Some g -> truthy g = true.
Proof.
  intros H. apply find_some in H as [_ H].
  unfold is_metadata_file in H. apply andb_prop in H as [_ H].
  now apply (endswith_truthy ".json").
Qed.

Lemma find_companions_scaler (env : Env) (files : list string) (f : string) :
  list_repo_files env = Ok files ->
  find is_scaler_file files = Some f ->
  In (HubDownload f) (fst (find_companions env))
  /\ fst (snd (find_companions env))
     = path_of_download (hf_hub_download env f).
Proof.
  intros Hfiles Hf. unfold find_companions.
  rewrite io_bind_fst, io_bind_snd. unfold list_files, emit. cbn [fst snd].
  rewrite Hfiles, Hf, (scaler_file_truthy _ Hf).
  rewrite io_bind_fst, io_bind_snd, io_bind_fst, io_bind_snd.
  unfold download, emit. cbn [fst snd].
  split; [simpl; auto|].
  destruct (hf_hub_download env f) as [p|e]; cbn [io_ret snd fst];
    [|reflexivity].
  destruct (find is_metadata_file files) as [g|]; [|reflexivity].
  destruct (truthy g); [|reflexivity].
  rewrite io_bind_snd. cbn [snd].
  now destruct (hf_hub_download env g).
Qed.

Lemma find_companions_metadata (env : Env) (files : list string)
    (g : string) :
  list_repo_files env = Ok files ->
  find is_metadata_file files = Some g ->
  (forall f, find is_scaler_file files = Some f ->
             is_ok (hf_hub_download env f) = true) ->
  In (HubDownload g) (fst (find_companions env))
  /\ snd (snd (find_companions env))
     = path_of_download (hf_hub_download env g).
Proof.
  intros Hfiles Hg Hscaler. unfold find_companions.
  rewrite io_bind_fst, io_bind_snd. unfold list_files, emit. cbn [fst snd].
  rewrite Hfiles, Hg, (metadata_file_truthy _ Hg).
  rewrite io_bind_fst, io_bind_snd.
  assert (Hsp : exists log sp,
    (match find is_scaler_file files with
     | Some f =>
         if truthy f
         then io_bind (download env f)
                (fun r => io_ret match r with
                                 | Ok p => Ok (Some p)
                                 | Raise e => Raise e
                                 end)
         else io_ret (Ok None)
     | None => io_ret (Ok None)
     end) = (log, Ok sp)).
  { destruct (find is_scaler_file files) as [f|] eqn:Ef;
      [|eexists _, _; reflexivity].
    specialize (Hscaler f eq_refl).
    destruct (truthy f); [|eexists _, _; reflexivity].
    unfold download, emit, io_bind, io_ret.
    destruct (hf_hub_download env f); [|discriminate].
    eexists _, _; reflexivity. }
  destruct Hsp as (log & sp & ->). cbn [fst snd].
  rewrite io_bind_fst, io_bind_snd. unfold download, emit. cbn [fst snd].
  split.
  - apply in_or_app; right. apply in_or_app; right. simpl; auto.
  - now destruct (hf_hub_download env g).
Qed.

(** *** Error messages and downloads *)

Lemma dispatch_error_nonempty (env : Env) (path : string)
    (sp mp : option string) (err : string) :
  snd (dispatch env path sp mp) = Failure err -> truthy err = true.
Proof.
  unfold dispatch, load_keras, load_torch.
  destruct (truthy path && endswith ".keras" path).
  - destruct (negb (HAS_TF env)).
    + intros H. injection H as <-. reflexivity.
    + rewrite io_bind_snd. unfold emit. cbn [snd].
      destruct (tf_load_model env path).
      * rewrite !io_bind_snd. discriminate.
      * intros H. injection H as <-. reflexivity.
  - rewrite io_bind_snd. unfold emit. cbn [snd].
    destruct (torch_load env path).
    + rewrite io_bind_snd. cbn [snd].
      destruct (load_state_dict env _); [discriminate|].
      intros H. injection H as <-. reflexivity.
    + intros H. injection H as <-. reflexivity.
Qed.

Lemma not_found_error_nonempty (env : Env) (last_error : option string)
    (err : string) :
  snd (not_found env last_error) = Failure err -> truthy err = true.
Proof.
  unfold not_found. rewrite io_bind_snd. unfold list_files, emit. cbn [snd].
  destruct (list_repo_files env); intros H; injection H as <-; reflexivity.
Qed.

(** Every message [load_model] returns begins with a literal, so the test
    [if err:] of [main] is taken exactly when the load failed. *)
Lemma load_model_error_nonempty (env : Env) (err : string) :
  snd (load_model env) = Failure err -> truthy err = true.
Proof.
  unfold load_model. rewrite !io_bind_snd.
  destruct (snd (try_candidates env possible_filenames None))
    as [[path|] last_error].
  - apply dispatch_error_nonempty.
  - rewrite io_bind_snd.
    destruct (snd (try_candidates env keras_files last_error))
      as [model_path last_error'].
    rewrite !io_bind_snd.
    match goal with
    | |- context [let (_, _) := ?c in _] => destruct c as [sp mp]
    end.
    match goal with
    | |- context [match ?c with Some _ => _ | None => not_found _ _ end] =>
        destruct c
    end.
    + apply dispatch_error_nonempty.
    + apply not_found_error_nonempty.
Qed.

Lemma try_candidates_downloads (env : Env) (filenames : list string) :
  forall last_error e,
    In e (fst (try_candidates env filenames last_error)) ->
    exists f, e = HubDownload f /\ In f filenames.
Proof.
  induction filenames as [|f rest IH]; intros last_error e; [contradiction|].
  cbn [try_candidates]. rewrite io_bind_fst. unfold download, emit.
  cbn [fst snd]. intros [<- | H]; [exists f; simpl; auto|].
  destruct (hf_hub_download env f); [contradiction|].
  destruct (IH _ _ H) as (g & -> & Hg). exists g. simpl; auto.
Qed.

Lemma dispatch_no_download (env : Env) (path : string)
    (sp mp : option string) (f : string) :
  ~ In (HubDownload f) (fst (dispatch env path sp mp)).
Proof.
  unfold dispatch, load_keras, load_torch.
  destruct (truthy path && endswith ".keras" path).
  - destruct (negb (HAS_TF env)); [auto|].
    rewrite io_bind_fst. unfold emit. cbn [fst snd].
    destruct (tf_load_model env path); [|simpl; intuition discriminate].
    rewrite !io_bind_fst.
    destruct mp as [m|]; [destruct (truthy m)|];
      (destruct sp as [s|]; [destruct (truthy s)|]);
      rewrite ?io_bind_fst; simpl; intuition discriminate.
  - rewrite io_bind_fst. unfold emit. cbn [fst snd].
    destruct (torch_load env path); [|simpl; intuition discriminate].
    rewrite io_bind_fst. cbn [fst snd].
    destruct (load_state_dict env _); simpl; intuition discriminate.
Qed.

(** When a PyTorch candidate downloads, every download of the run is that
    of a PyTorch candidate name: no companion is fetched. *)
Lemma native_branch_downloads (env : Env) (path f : string) :
  found_by_name env possible_filenames = Some path ->
  In (HubDownload f) (fst (load_model env)) ->
  In f possible_filenames.
Proof.
  intros Hfound. unfold load_model.
  rewrite io_bind_fst, io_bind_fst.
  pose proof (try_candidates_found env possible_filenames None) as H1.
  pose proof (try_candidates_downloads env possible_filenames None) as H2.
  rewrite Hfound in H1.
  destruct (try_candidates env possible_filenames None)
    as [log1 [mp1 le1]]. cbn [fst snd] in *. subst mp1.
  intros H. apply in_app_or in H as [H | H].
  - unfold list_files, emit in H. simpl in H. intuition discriminate.
  - apply in_app_or in H as [H | H].
    + destruct (H2 _ H) as (g & E & Hg). now injection E as ->.
    + now apply dispatch_no_download in H.
Qed.

(** C5, as the code has it.  When no PyTorch candidate downloads and a
    Keras artifact is found, by a candidate name or by the listing, the
    resolver runs the companion search: it downloads the first listed file
    whose lowercased name contains "scaler" and that ends in ".pkl", and,
    unless that download raised, the first one whose lowercased name
    contains "metadata" and that ends in ".json".  Nothing the companions
    do is fatal: the result of [load_model] is the one it would have with
    no companion at all, up to the scaler and metadata of the tuple. *)
Theorem companions_searched_on_keras_branch :
  forall (env : Env) (path : string),
    found_by_name env possible_filenames = None ->
    (found_by_name env keras_files = Some path
     \/ (found_by_name env keras_files = None
         /\ found_by_listing env = Some path)) ->
    truthy path = true ->
    let search := find_companions env in
    (exists before after,
        fst (load_model env) = before ++ fst search ++ after)
    /\ same_up_to_companions (snd (load_model env))
                             (snd (dispatch env path None None))
    /\ (forall files f,
           list_repo_files env = Ok files ->
           find is_scaler_file files = Some f ->
           In (HubDownload f) (fst search)
           /\ fst (snd search) = path_of_download (hf_hub_download env f))
    /\ (forall files g,
           list_repo_files env = Ok files ->
           find is_metadata_file files = Some g ->
           (forall f, find is_scaler_file files = Some f ->
                      is_ok (hf_hub_download env f) = true) ->
           In (HubDownload g) (fst search)
           /\ snd (snd search) = path_of_download (hf_hub_download env g)).
Proof.
  intros env path Hnative Halt Htruthy search.
  destruct (load_model_keras_branch env Hnative Halt Htruthy)
    as [Hlog Hres].
  split; [exact Hlog|]. split; [rewrite Hres; apply dispatch_same|].
  split.
  - intros files f. apply find_companions_scaler.
  - intros files g. apply find_companions_metadata.
Qed.

Lemma companions_searched_on_keras_branch_witness :
  let search := find_companions keras_env in
  (exists before after,
      fst (load_model keras_env) = before ++ fst search ++ after)
  /\ same_up_to_companions
       (snd (load_model keras_env))
       (snd (dispatch keras_env "/cache/final.keras" None None))
  /\ (forall files f,
         list_repo_files keras_env = Ok files ->
         find is_scaler_file files = Some f ->
         In (HubDownload f) (fst search)
         /\ fst (snd search)
            = path_of_download (hf_hub_download keras_env f))
  /\ (forall files g,
         list_repo_files keras_env = Ok files ->
         find is_metadata_file files = Some g ->
         (forall f, find is_scaler_file files = Some f ->
                    is_ok (hf_hub_download keras_env f) = true) ->
         In (HubDownload g) (fst search)
         /\ snd (snd search)
            = path_of_download (hf_hub_download keras_env g)).
Proof.
  apply (@companions_searched_on_keras_branch keras_env
           "/cache/final.keras").
  - reflexivity.
  - right. split; reflexivity.
  - reflexivity.
Defined.

(** The statement of C5 fails on the code.  On a hub that holds
    [model.pth] next to [scaler.pkl] and [metadata.json], the resolver
    finds the PyTorch checkpoint and returns the module without listing
    the repository again and without downloading either companion. *)
Lemma native_checkpoint_skips_companions :
  find is_scaler_file torch_repo = Some "scaler.pkl"%string
  /\ find is_metadata_file torch_repo = Some "metadata.json"%string
  /\ hf_hub_download torch_env "scaler.pkl" = Ok "/cache/scaler.pkl"%string
  /\ fst (load_model torch_env)
     = [ListRepoFiles; HubDownload "model.pth";
        TorchLoad "/cache/model.pth"; LoadStateDict]
  /\ snd (load_model torch_env) = Model (TorchModule half_stub)
  /\ ~ In (HubDownload "scaler.pkl") (fst (load_model torch_env))
  /\ ~ In (HubDownload "metadata.json") (fst (load_model torch_env)).
Proof.
  repeat split; try reflexivity; vm_compute;
    intros H; repeat destruct H as [H | H]; try discriminate H; exact H.
Qed.

(** ** The quantile bands of Program A *)



Section QuantileBands.

Variable T : Type.
Variable leb : T -> T -> bool.
Variable lerp : T -> T -> nat -> nat -> T.
Variable dflt : T.

Let sort := ChronosPredict.sort leb.
Let insert := ChronosPredict.insert leb.








(** The order is transitive; it need not be total. *)
Hypothesis leb_trans :
  forall a b c, leb a b = true -> leb b c = true -> leb a c = true.







End QuantileBands.








(** * Further properties of the two programs *)

Import Further.

(** ** The input parser *)

(** X1.  The parse of a token list succeeds exactly when every token is a
    number, and then gives the numbers of the tokens, one per token and in
    their order. *)
Theorem parse_tokens_pointwise :
  forall (N : Type) (py : string -> option N) (tokens : list string)
         (xs : list N),
    parse_tokens py tokens = Some xs
    <-> Forall2 (fun tok x => py tok = Some x) tokens xs.
Proof.
  intros N py tokens. induction tokens as [|tok rest IH]; intros xs; simpl.
  - split.
    + intros H. injection H as <-. constructor.
    + intros H. inversion H. reflexivity.
  - split.
    + destruct (py tok) as [x|] eqn:E; [|discriminate].
      destruct (parse_tokens py rest) as [ys|] eqn:Er; [|discriminate].
      intros H. injection H as <-. constructor; [exact E|].
      now apply IH.
    + intros H. inversion H as [|t x r ys Hx Hr]; subst.
      rewrite Hx. apply IH in Hr. now rewrite Hr.
Qed.

Lemma split_comma_nonempty (s : string) : split_comma s <> [].
Proof.
  destruct s as [|c rest]; simpl; [discriminate|].
  destruct (Ascii.eqb c ","); [discriminate|].
  destruct (split_comma rest); discriminate.
Qed.

(** X2.  Splitting on commas loses nothing: joining the tokens with commas
    gives the text back, no token holds a comma, and there is one token
    more than there are commas. *)
Theorem split_comma_join :
  forall s : string,
    String.concat "," (split_comma s) = s
    /\ Forall (fun tok =>
                 existsb (Ascii.eqb ",") (list_ascii_of_string tok) = false)
              (split_comma s)
    /\ length (split_comma s)
       = S (length (filter (Ascii.eqb ",") (list_ascii_of_string s))).
Proof.
  induction s as [|c rest (IHj & IHc & IHn)].
  - simpl. repeat constructor.
  - cbn [split_comma list_ascii_of_string filter].
    destruct (Ascii.eqb c ",") eqn:E.
    + apply Ascii.eqb_eq in E. subst c.
      rewrite Ascii.eqb_refl. split; [|split].
      * pose proof (split_comma_nonempty rest) as Hne.
        cbn [String.concat].
        destruct (split_comma rest) as [|t ts] eqn:Es; [congruence|].
        rewrite IHj. reflexivity.
      * constructor; [reflexivity | exact IHc].
      * cbn [length]. now rewrite IHn.
    + rewrite Ascii.eqb_sym in E. rewrite E.
      pose proof (split_comma_nonempty rest) as Hne.
      destruct (split_comma rest) as [|t ts] eqn:Es; [congruence|].
      split; [|split].
      * cbn [String.concat] in *. destruct ts as [|t' ts'].
        -- now rewrite IHj.
        -- rewrite <- IHj. reflexivity.
      * inversion IHc as [|? ? Ht Hts]; subst.
        constructor; [|exact Hts].
        cbn [list_ascii_of_string existsb]. now rewrite E, Ht.
      * cbn [length] in *. exact IHn.
Qed.


(** ** The forecaster on any non-empty series *)

Lemma last_n_length_min {A} (n : nat) (l : list A) :
  length (last_n n l) = Nat.min n (length l).
Proof. unfold last_n. rewrite length_skipn. lia. Qed.

Lemma last_n_nonempty {A} (n : nat) (l : list A) :
  0 < n -> l <> [] -> last_n n l <> [].
Proof.
  intros Hn Hl E. apply (f_equal (@length A)) in E.
  rewrite last_n_length_min in E.
  destruct l as [|a l]; [congruence|].
  change (length (a :: l)) with (S (length l)) in E.
  change (@length A []) with 0 in E. lia.
Qed.

Lemma scales_agree (min_val max_val : float) :
  scale_unless_flat min_val max_val = scale_or_one min_val max_val.
Proof.
  unfold scale_unless_flat, scale_or_one.
  now destruct (PrimFloat.eqb max_val min_val).
Qed.

Lemma bind_infer_raise {B} net x e (k : float -> Run B) :
  net x = Raise e -> bind (infer net x) k = ([x], Raise e).
Proof. intros H. unfold bind, infer. now rewrite H. Qed.

Lemma trace_step net shape (m n : nat) (x : Tensor) (v : float)
    (rest : Run (list float)) :
  net x = Ok v -> shape x ->
  trace_from net shape (S m) n rest ->
  trace_from net shape m (S n) (x :: calls rest, outcome rest).
Proof.
  intros Hv Hx [Hrows H]. unfold trace_from, calls, outcome in *.
  cbn [fst snd]. split; [now constructor|].
  destruct (snd rest) as [preds|e].
  - destruct H as (Hp & Hc & Hall). split; [lia|].
    split; [simpl; congruence|].
    constructor; [now rewrite Hv | exact Hall].
  - destruct H as (before & w & Hc & Hw & Hall & Hlen).
    exists (x :: before), w. rewrite Hc.
    split; [reflexivity|]. split; [exact Hw|].
    split; [constructor; [now rewrite Hv | exact Hall] | simpl; lia].
Qed.

Lemma trace_raise net (shape : Tensor -> Prop) (m n : nat) (x : Tensor)
    (e : string) :
  net x = Raise e -> shape x ->
  trace_from net shape m (S n) ([x], Raise e).
Proof.
  intros He Hx. unfold trace_from. cbn. split; [now constructor|].
  exists [], x.
  split; [reflexivity|]. split; [exact He|].
  split; [constructor | simpl; lia].
Qed.

Lemma trace_done net (shape : Tensor -> Prop) (predictions : list float) :
  trace_from net shape (length predictions) 0 (ret predictions).
Proof.
  unfold trace_from. cbn. split; [constructor|].
  split; [lia|]. split; [reflexivity | constructor].
Qed.

Lemma single_loop_trace net cast scale min_val (shape : Tensor -> Prop) :
  (forall x v, shape x -> shape (tl x ++ [[cast v]])) ->
  forall n input predictions,
    shape input ->
    trace_from net shape (length predictions) n
      (single_loop net cast scale min_val n input predictions).
Proof.
  intros Hslide. induction n as [|n IH]; intros input predictions Hin.
  - apply trace_done.
  - cbn [single_loop]. destruct (net input) as [v|e] eqn:E.
    + rewrite (bind_infer_ok _ _ _ E).
      apply trace_step with (v := v); [exact E | exact Hin |].
      replace (S (length predictions))
        with (length (predictions ++ [v * scale + min_val]%float))
        by (rewrite length_app; simpl; lia).
      apply IH. now apply Hslide.
    + erewrite bind_infer_raise by exact E. now apply trace_raise.
Qed.

Lemma keras6_loop_trace np_mean np_std km scaler (shape : Tensor -> Prop)
    (rows : nat) :
  rows <> 0 ->
  (forall cs, length cs = rows ->
     shape (normalize_features np_mean np_std scaler
              (synth_features np_mean cs))) ->
  forall n cs predictions,
    length cs = rows ->
    trace_from (keras_predict km) shape (length predictions) n
      (keras6_loop np_mean np_std km scaler n cs
         (normalize_features np_mean np_std scaler
            (synth_features np_mean cs))
         predictions).
Proof.
  intros Hrows Hshape.
  induction n as [|n IH]; intros cs predictions Hcs.
  - apply trace_done.
  - cbn [keras6_loop].
    set (input := normalize_features np_mean np_std scaler
                    (synth_features np_mean cs)) in *.
    destruct (keras_predict km input) as [v|e] eqn:E.
    + rewrite (bind_infer_ok _ _ _ E).
      apply trace_step with (v := v); [exact E | now apply Hshape |].
      set (real_pred := (v * np_std cs + np_mean cs)%float).
      replace (S (length predictions))
        with (length (predictions ++ [real_pred]))
        by (rewrite length_app; simpl; lia).
      apply IH. subst rows.
      destruct cs; simpl in *; [congruence|].
      rewrite length_app. simpl. lia.
    + erewrite bind_infer_raise by exact E.
      apply trace_raise; [exact E | now apply Hshape].
Qed.

Lemma normalized_window (cast : float -> float) (mn sc : float)
    (w : list float) :
  map (map cast) (normalize_col mn sc (reshape_col w))
  = map (fun x => [cast ((x - mn) / sc)%float]) w.
Proof.
  unfold normalize_col, reshape_col. rewrite !map_map. reflexivity.
Qed.

Lemma normalized_window_id (mn sc : float) (w : list float) :
  normalize_col mn sc (reshape_col w)
  = map (fun x => [((x - mn) / sc)%float]) w.
Proof.
  unfold normalize_col, reshape_col. rewrite !map_map. reflexivity.
Qed.

(** The run of [predict] on a non-empty series, for any property of
    tensors that the first window has and that sliding keeps. *)
Lemma predict_trace np_mean np_std HAS_TF model (prices : list float)
    (steps : Z) (shape : Tensor -> Prop) :
  prices <> [] ->
  (forall x v, shape x -> shape (tl x ++ [[v]])) ->
  (forall f : float -> float,
      shape (map (fun x => [f x]) (last_n SEQUENCE_LENGTH prices))) ->
  (forall cs, length cs = length (last_n SEQUENCE_LENGTH prices) ->
     shape (normalize_features np_mean np_std (scaler_of model)
              (synth_features np_mean cs))) ->
  trace_from (network HAS_TF model) shape 0 (Z.to_nat steps)
    (predict np_mean np_std HAS_TF model prices steps).
Proof.
  intros Hne Hslide Hfirst Hsix.
  assert (Hw : last_n SEQUENCE_LENGTH prices <> [])
    by (apply last_n_nonempty; [unfold SEQUENCE_LENGTH; lia | exact Hne]).
  destruct (np_min_nonempty Hw) as [mn Hmn].
  destruct (np_max_nonempty Hw) as [mx Hmx].
  unfold predict.
  destruct HAS_TF, model as [forward | keras_model scaler metadata];
    cbn [network call_module scaler_of] in *;
    try (rewrite flatten_reshape_col, Hmn, Hmx, !bind_lift_ok,
           normalized_window;
         apply (@single_loop_trace _ to_float32 _ _ shape
                  (fun x v => Hslide x (to_float32 v)) _ _ []);
         apply Hfirst).
  destruct (six_channels (input_shape keras_model)).
  - apply (@keras6_loop_trace np_mean np_std keras_model scaler shape
             (length (last_n SEQUENCE_LENGTH prices))); auto.
    intros E. apply length_zero_iff_nil in E. contradiction.
  - rewrite flatten_reshape_col, Hmn, Hmx, !bind_lift_ok,
      normalized_window_id.
    apply (@single_loop_trace _ (fun x => x) _ _ shape
             (fun x v => Hslide x v) _ _ []).
    apply Hfirst.
Qed.

(** X3.  A failure of [predict] on a non-empty series is the failure of an
    inference call.  The run stops at the first call that raises: every
    earlier call was answered, none is made afterwards, no prediction is
    returned, and the message is the one that call raised. *)
Theorem predict_stops_at_first_failure :
  forall np_mean np_std HAS_TF model (prices : list float) steps e,
    prices <> [] ->
    let run := predict np_mean np_std HAS_TF model prices steps in
    outcome run = Raise e ->
    exists before w,
      calls run = before ++ [w]
      /\ network HAS_TF model w = Raise e
      /\ Forall (fun x => is_ok (network HAS_TF model x) = true) before
      /\ (Z.of_nat (length before) < steps)%Z.
Proof.
  intros np_mean np_std HAS_TF model prices steps e Hne run Hout.
  destruct (@predict_trace np_mean np_std HAS_TF model prices steps
              (fun _ => True) Hne) as [_ H]; auto.
  fold run in H. rewrite Hout in H.
  destruct H as (before & w & Hc & Hw & Hall & Hlen).
  exists before, w. repeat split; auto. lia.
Qed.

Lemma predict_stops_at_first_failure_witness :
  let run :=
    predict seq_mean seq_mean false (TorchModule moody_stub)
            prices_1_to_60 3 in
  exists before w,
    calls run = before ++ [w]
    /\ network false (TorchModule moody_stub) w = Raise "CUDA out of memory"
    /\ Forall (fun x => is_ok (network false (TorchModule moody_stub) x)
                        = true) before
    /\ (Z.of_nat (length before) < 3)%Z.
Proof.
  apply (@predict_stops_at_first_failure seq_mean seq_mean false
           (TorchModule moody_stub) prices_1_to_60 3%Z
           "CUDA out of memory").
  - discriminate.
  - vm_compute. reflexivity.
Defined.

(** X4.  [predict] itself does not require 60 points.  On any non-empty
    series, with an inference-capable handle, it returns one prediction
    per step after one call per step (none when [steps <= 0]), and every
    window it hands to the network has [min 60 (len prices)] rows. *)
Theorem predict_on_any_series :
  forall np_mean np_std HAS_TF model (prices : list float) steps,
    prices <> [] ->
    inference_capable HAS_TF model ->
    let run := predict np_mean np_std HAS_TF model prices steps in
    exists preds,
      outcome run = Ok preds
      /\ length preds = Z.to_nat steps
      /\ length (calls run) = Z.to_nat steps
      /\ Forall (fun w => length w = Nat.min 60 (length prices))
                (calls run).
Proof.
  intros np_mean np_std HAS_TF model prices steps Hne [Hnet Hsc] run.
  assert (Hw : last_n SEQUENCE_LENGTH prices <> [])
    by (apply last_n_nonempty; [unfold SEQUENCE_LENGTH; lia | exact Hne]).
  assert (Hrows : length (last_n SEQUENCE_LENGTH prices)
                  = Nat.min 60 (length prices))
    by apply last_n_length_min.
  destruct (@predict_trace np_mean np_std HAS_TF model prices steps
              (fun w => length w = Nat.min 60 (length prices)) Hne)
    as [Hshape H].
  - intros x v Hx. rewrite slid_length; [exact Hx|].
    rewrite Hx, <- Hrows. intros E. apply length_zero_iff_nil in E.
    contradiction.
  - intros f. now rewrite length_map.
  - intros cs Hcs.
    rewrite (@normalize_features_length np_mean np_std (scaler_of model)
               (fun t x y => Hsc t x y)).
    rewrite synth_features_length. congruence.
  - fold run in Hshape, H.
    destruct (outcome run) as [preds|e].
    + destruct H as (Hp & Hc & _). exists preds. auto.
    + destruct H as (before & w & _ & Hw' & _).
      destruct (Hnet w) as [v Hv]. congruence.
Qed.

Lemma predict_on_any_series_witness :
  let run :=
    predict seq_mean seq_mean false torch_half [5; 7; 6]%float 2 in
  exists preds,
    outcome run = Ok preds
    /\ length preds = Z.to_nat 2
    /\ length (calls run) = Z.to_nat 2
    /\ Forall (fun w => length w = Nat.min 60 (length [5; 7; 6]%float))
              (calls run).
Proof.
  apply (@predict_on_any_series seq_mean seq_mean false torch_half
           [5; 7; 6]%float 2%Z).
  - discriminate.
  - apply half_stub_capable.
Defined.

(** X5.  On the single-feature branches an empty series makes [predict]
    raise numpy's zero-size reduction error before any inference call,
    whatever [steps] is. *)
Theorem predict_empty_series_raises :
  forall np_mean np_std HAS_TF model steps,
    six_channel_path HAS_TF model = false ->
    predict np_mean np_std HAS_TF model [] steps
    = ([], Raise "zero-size array to reduction operation minimum which has no identity").
Proof.
  intros np_mean np_std HAS_TF model steps Hpath. unfold predict.
  destruct HAS_TF, model as [forward | keras_model scaler metadata];
    cbn [six_channel_path] in Hpath; try rewrite Hpath; reflexivity.
Qed.

Lemma predict_empty_series_raises_witness :
  predict seq_mean seq_mean true (keras_half 1) [] 4
  = ([], Raise "zero-size array to reduction operation minimum which has no identity").
Proof.
  apply (@predict_empty_series_raises seq_mean seq_mean true (keras_half 1)
           4%Z).
  reflexivity.
Defined.

Section Formula.

Variables (net : Tensor -> Res float) (cast : float -> float).
Variables (scale min_val : float).

Lemma single_loop_formula :
  forall n input predictions out,
    outcome (single_loop net cast scale min_val n input predictions)
    = Ok out ->
    exists preds,
      out = predictions ++ preds
      /\ Forall2 (fun w p => exists v,
                    net w = Ok v /\ p = (v * scale + min_val)%float)
                 (calls (single_loop net cast scale min_val n input
                           predictions))
                 preds.
Proof.
  induction n as [|n IH]; intros input predictions out.
  - cbn. intros H. injection H as <-. exists [].
    rewrite app_nil_r. split; [reflexivity | constructor].
  - cbn [single_loop]. destruct (net input) as [v|e] eqn:E.
    + rewrite (bind_infer_ok _ _ _ E). unfold outcome, calls. cbn [fst snd].
      intros H. apply IH in H as (preds & -> & Hall).
      exists ((v * scale + min_val)%float :: preds). split.
      * now rewrite <- app_assoc.
      * constructor; [exists v; auto | exact Hall].
    + erewrite bind_infer_raise by exact E. discriminate.
Qed.

End Formula.

(** X6.  The single-feature branches fix their normalization once.  With
    [min] and [max] the extremes of the initial window and
    [scale = 1.0 if max == min else max - min], the first tensor handed to
    the network is the window mapped through [(x - min) / scale] (stored
    as float32 on the PyTorch branch), and every prediction returned is
    [v * scale + min] for the answer [v] of the network at that step. *)
Theorem single_feature_fixed_normalization :
  forall np_mean np_std HAS_TF model (prices : list float) steps,
    six_channel_path HAS_TF model = false ->
    prices <> [] ->
    let window := last_n SEQUENCE_LENGTH prices in
    let run := predict np_mean np_std HAS_TF model prices steps in
    exists min_val max_val,
      np_min window = Ok min_val
      /\ np_max window = Ok max_val
      /\ let scale := scale_or_one min_val max_val in
         ((1 <= steps)%Z ->
          hd_error (calls run)
          = Some (map (fun x => [storage HAS_TF model
                                   ((x - min_val) / scale)%float])
                      window))
         /\ forall preds,
              outcome run = Ok preds ->
              Forall2 (fun w p => exists v,
                         network HAS_TF model w = Ok v
                         /\ p = (v * scale + min_val)%float)
                      (calls run) preds.
Proof.
  intros np_mean np_std HAS_TF model prices steps Hpath Hne window run.
  assert (Hw : window <> [])
    by (apply last_n_nonempty; [unfold SEQUENCE_LENGTH; lia | exact Hne]).
  destruct (np_min_nonempty Hw) as [mn Hmn].
  destruct (np_max_nonempty Hw) as [mx Hmx].
  exists mn, mx. split; [exact Hmn|]. split; [exact Hmx|]. cbn zeta.
  assert (Hrun :
    run = single_loop (network HAS_TF model) (storage HAS_TF model)
            (scale_or_one mn mx) mn (Z.to_nat steps)
            (map (fun x => [storage HAS_TF model
                              ((x - mn) / scale_or_one mn mx)%float])
                 window) []).
  { unfold run, predict. fold window.
    destruct HAS_TF, model as [forward | keras_model scaler metadata];
      cbn [network storage six_channel_path call_module] in *;
      try rewrite Hpath;
      rewrite flatten_reshape_col, Hmn, Hmx, !bind_lift_ok,
        ?scales_agree, ?normalized_window, ?normalized_window_id;
      reflexivity. }
  rewrite Hrun. split.
  - intros Hsteps. destruct (Z.to_nat steps) as [|n] eqn:E; [lia|].
    cbn [single_loop].
    destruct (network HAS_TF model
                (map (fun x => [storage HAS_TF model
                                  ((x - mn) / scale_or_one mn mx)%float])
                     window)) as [v|e] eqn:Ev.
    + now rewrite (bind_infer_ok _ _ _ Ev).
    + now erewrite bind_infer_raise by exact Ev.
  - intros preds Hout.
    apply single_loop_formula in Hout as (ps & -> & Hall). exact Hall.
Qed.

Lemma single_feature_fixed_normalization_witness :
  let window := last_n SEQUENCE_LENGTH prices_1_to_60 in
  let run := predict seq_mean seq_mean false torch_half prices_1_to_60 2 in
  exists min_val max_val,
    np_min window = Ok min_val
    /\ np_max window = Ok max_val
    /\ let scale := scale_or_one min_val max_val in
       ((1 <= 2)%Z ->
        hd_error (calls run)
        = Some (map (fun x => [storage false torch_half
                                 ((x - min_val) / scale)%float])
                    window))
       /\ forall preds,
            outcome run = Ok preds ->
            Forall2 (fun w p => exists v,
                       network false torch_half w = Ok v
                       /\ p = (v * scale + min_val)%float)
                    (calls run) preds.
Proof.
  apply (@single_feature_fixed_normalization seq_mean seq_mean false
           torch_half prices_1_to_60 2%Z).
  - reflexivity.
  - discriminate.
Defined.

(** ** The six synthesized channels *)

Lemma column_of_rows (c : nat) (f : nat -> list float) (n : nat) :
  map (fun row => nth c row nan) (map f (seq 0 n))
  = map (fun i => nth c (f i) nan) (seq 0 n).
Proof. now rewrite map_map. Qed.

Lemma map_nth_seq (l : list float) :
  map (fun i => nth i l nan) (seq 0 (length l)) = l.
Proof.
  apply nth_ext with (d := nan) (d' := nan).
  - now rewrite length_map, length_seq.
  - intros i Hi. rewrite length_map, length_seq in Hi.
    rewrite (nth_indep _ nan ((fun i => nth i l nan) 0))
      by now rewrite length_map, length_seq.
    rewrite (map_nth (fun i => nth i l nan)).
    now rewrite seq_nth.
Qed.

Lemma synth_features_widths np_mean (cs : list float) :
  Forall (fun row => length row = 6) (synth_features np_mean cs).
Proof.
  apply Forall_forall. intros row Hrow.
  apply in_map_iff in Hrow as (i & <- & _). reflexivity.
Qed.

(** X7.  The features synthesized from a price window.  There is one row of
    six channels per price; channel 0 is the price series itself, channel
    5 is the constant 1.0 standing for the volume, and channel 1 is 0 at
    the first timestep and the difference to the previous price at every
    later one. *)
Theorem synth_features_channels :
  forall np_mean (cs : list float),
    let features := synth_features np_mean cs in
    length features = length cs
    /\ Forall (fun row => length row = 6) features
    /\ column 0 features = cs
    /\ column 5 features = repeat 1%float (length cs)
    /\ forall i, i < length cs ->
         nth i (column 1 features) nan
         = match i with
           | O => 0%float
           | S j => (nth (S j) cs nan - nth j cs nan)%float
           end.
Proof.
  intros np_mean cs features. unfold features, synth_features, column.
  split; [now rewrite length_map, length_seq|].
  split; [apply synth_features_widths|].
  rewrite !column_of_rows. cbn [feature_row nth].
  split; [apply map_nth_seq|]. split.
  - apply nth_ext with (d := nan) (d' := nan).
    + now rewrite length_map, length_seq, repeat_length.
    + intros i Hi. rewrite length_map, length_seq in Hi.
      rewrite nth_repeat_lt by exact Hi.
      rewrite (nth_indep _ nan ((fun _ : nat => 1%float) 0))
        by now rewrite length_map, length_seq.
      now rewrite (map_nth (fun _ : nat => 1%float)).
  - intros i Hi.
    set (f := fun i : nat =>
                if 0 <? i
                then (nth i cs nan - nth (i - 1) cs nan)%float
                else 0%float).
    rewrite (nth_indep _ nan (f 0)) by now rewrite length_map, length_seq.
    rewrite (map_nth f), seq_nth by exact Hi. unfold f. cbn [Nat.add].
    destruct i as [|j]; [reflexivity|].
    cbn [Nat.ltb Nat.leb]. now rewrite Nat.sub_succ, Nat.sub_0_r.
Qed.

Lemma standardize_widths np_mean np_std (features : Tensor) (n : nat) :
  Forall (fun row => length row = n) features ->
  Forall (fun row => length row = n) (standardize np_mean np_std features).
Proof.
  intros H. unfold standardize. apply Forall_forall. intros row Hrow.
  apply in_map_iff in Hrow as (r & <- & Hr).
  rewrite Forall_forall in H. specialize (H r Hr).
  rewrite length_map, length_combine, length_seq. lia.
Qed.

(** X8.  On the 6-channel branch with no usable scaler (none was loaded, or
    its [transform] raises), every tensor handed to the Keras network has
    shape [(min 60 (len prices), 6)]: the standardization keeps the six
    channels and the sliding keeps the number of rows. *)
Theorem six_channel_tensors_keep_shape :
  forall np_mean np_std keras_model scaler metadata (prices : list float)
         steps,
    six_channels (input_shape keras_model) = true ->
    prices <> [] ->
    (forall transform, scaler = Some transform ->
       forall features, is_ok (transform features) = false) ->
    Forall (fun w => length w = Nat.min 60 (length prices)
                     /\ Forall (fun row => length row = 6) w)
           (calls (predict np_mean np_std true
                           (KerasTuple keras_model scaler metadata)
                           prices steps)).
Proof.
  intros np_mean np_std km scaler metadata prices steps Hsix Hne Hsc.
  assert (Hw : last_n SEQUENCE_LENGTH prices <> [])
    by (apply last_n_nonempty; [unfold SEQUENCE_LENGTH; lia | exact Hne]).
  assert (Hnorm : forall features,
    normalize_features np_mean np_std scaler features
    = standardize np_mean np_std features).
  { intros features. unfold normalize_features.
    destruct scaler as [transform|]; [|reflexivity].
    specialize (Hsc transform eq_refl features).
    now destruct (transform features). }
  unfold predict. rewrite Hsix.
  apply (@keras6_loop_trace np_mean np_std km scaler
           (fun w => length w = Nat.min 60 (length prices)
                     /\ Forall (fun row => length row = 6) w)
           (length (last_n SEQUENCE_LENGTH prices))).
  - intros E. apply length_zero_iff_nil in E. contradiction.
  - intros cs Hcs. rewrite Hnorm. split.
    + rewrite standardize_length, synth_features_length, Hcs.
      apply last_n_length_min.
    + apply standardize_widths, synth_features_widths.
  - reflexivity.
Qed.

Lemma six_channel_tensors_keep_shape_witness :
  Forall (fun w => length w = Nat.min 60 (length prices_1_to_60)
                   /\ Forall (fun row => length row = 6) w)
         (calls (predict seq_mean seq_mean true (keras_half 6)
                         prices_1_to_60 2)).
Proof.
  apply (@six_channel_tensors_keep_shape seq_mean seq_mean
           {| input_shape := [None; Some 60%Z; Some 6%Z];
              keras_predict := half_stub |}
           None None prices_1_to_60 2%Z).
  - reflexivity.
  - discriminate.
  - intros transform H. discriminate H.
Defined.

(** ** The two programs as wholes *)

(** X9.  Whatever its arguments and collaborators do, Program B prints
    exactly one JSON object: either the success object with the keys
    [prediction] and [last_price], with exit status 0, or an object whose
    only key is [error], with a non-empty message and exit status 1.  The
    network is called only after the model was loaded. *)
Theorem lstm_prints_one_object :
  forall env prices_arg steps,
    let run := main env prices_arg steps in
    ((exit_status (process run) = 0%Z
      /\ exists preds last_price,
           stdout (process run)
           = [JObject [("prediction"%string, JArray preds);
                       ("last_price"%string, JNumber last_price)]])
     \/ (exit_status (process run) = 1%Z
         /\ exists message,
              truthy message = true
              /\ stdout (process run)
                 = [JObject [("error"%string, JString message)]]))
    /\ (inference_calls run <> [] ->
        exists model,
          snd (load_model env) = Model model
          /\ events run = fst (load_model env)).
Proof.
  intros env prices_arg steps run. unfold run, main.
  destruct (parse_tokens (py_float env) (split_comma prices_arg))
    as [prices|].
  - destruct (length prices <? SEQUENCE_LENGTH).
    + split; [right | intros H; now elim H].
      split; [reflexivity|]. eexists. split; [|reflexivity]. reflexivity.
    + pose proof (load_model_error_nonempty env) as Herr.
      destruct (load_model env) as [log [model|err]]; cbn [snd fst] in *.
      * split; [|intros _; exists model; split; reflexivity].
        cbn [process].
        destruct (outcome (predict _ _ _ model prices steps)) as [preds|e].
        -- left. split; [reflexivity|]. eexists _, _. reflexivity.
        -- right. split; [reflexivity|]. eexists.
           split; [|reflexivity]. reflexivity.
      * split; [right | intros H; now elim H].
        split; [reflexivity|]. exists err. split; [|reflexivity].
        now apply Herr.
  - split; [right | intros H; now elim H].
    split; [reflexivity|]. eexists. split; [|reflexivity]. reflexivity.
Qed.

(** X10.  The success path of Program B, end to end.  When the prices parse
    to at least 60 values and the resolver returns an inference-capable
    handle, the program makes one inference call per step, prints one
    prediction per step together with the last price of the input, and
    exits with status 0. *)
Theorem lstm_success_path :
  forall env prices_arg steps prices log model,
    parse_tokens (py_float env) (split_comma prices_arg) = Some prices ->
    60 <= length prices ->
    load_model env = (log, Model model) ->
    inference_capable (HAS_TF env) model ->
    let run := main env prices_arg steps in
    exists preds,
      process run
      = {| stdout :=
             [JObject [("prediction"%string, JArray preds);
                       ("last_price"%string, JNumber (last prices nan))]];
           exit_status := 0 |}
      /\ length preds = Z.to_nat steps
      /\ length (inference_calls run) = Z.to_nat steps
      /\ events run = log.
Proof.
  intros env prices_arg steps prices log model Hparse Hlen Hload [Hnet _]
         run.
  assert (Hne : prices <> [])
    by (intros E; rewrite E in Hlen; simpl in Hlen; lia).
  destruct (@predict_trace (np_mean env) (np_std env) (HAS_TF env) model
              prices steps (fun _ => True) Hne) as [_ H]; auto.
  unfold run, main. rewrite Hparse.
  replace (length prices <? SEQUENCE_LENGTH) with false
    by (symmetry; apply Nat.ltb_ge; exact Hlen).
  rewrite Hload. cbn [process inference_calls events].
  destruct (outcome (predict _ _ _ model prices steps)) as [preds|e].
  - destruct H as (Hp & Hc & _). exists preds. auto.
  - destruct H as (before & w & _ & Hw & _).
    destruct (Hnet w) as [v Hv]. congruence.
Qed.

Lemma lstm_success_path_witness :
  let run := main torch_env (count_to 61) 4 in
  exists preds,
    process run
    = {| stdout :=
           [JObject [("prediction"%string, JArray preds);
                     ("last_price"%string,
                      JNumber (last (map float_of_nat (seq 1 61)) nan))]];
         exit_status := 0 |}
    /\ length preds = Z.to_nat 4
    /\ length (inference_calls run) = Z.to_nat 4
    /\ events run = fst (load_model torch_env).
Proof.
  apply (@lstm_success_path torch_env (count_to 61) 4%Z
           (map float_of_nat (seq 1 61)) (fst (load_model torch_env))
           torch_half).
  - vm_compute. reflexivity.
  - vm_compute. lia.
  - reflexivity.
  - apply half_stub_capable.
Defined.

(** X11.  Program A prints exactly one JSON object too: either the object
    with the keys [prediction], [lower_bound] and [upper_bound], whose
    three sequences have the same length, with exit status 0, or an object
    whose only key is [error], with a non-empty message and exit status
    1. *)
Theorem chronos_prints_one_object :
  forall (T : Type) leb lerp (dflt : T) (env : ChronosPredict.Env T)
         prices_arg steps,
    let p := fst (ChronosPredict.main leb lerp dflt env prices_arg steps) in
    (exit_status p = 0%Z
     /\ exists median low high,
          stdout p
          = [JObject [("prediction"%string, JArray median);
                      ("lower_bound"%string, JArray low);
                      ("upper_bound"%string, JArray high)]]
          /\ length low = length median
          /\ length high = length median)
    \/ (exit_status p = 1%Z
        /\ exists message,
             truthy message = true
             /\ stdout p = [JObject [("error"%string, JString message)]]).
Proof.
  intros T leb lerp dflt env prices_arg steps p. unfold p.
  unfold ChronosPredict.main.
  destruct (parse_tokens _ _) as [prices|].
  - destruct (ChronosPredict.from_pretrained env) as [pipeline|e].
    + cbn [fst].
      destruct (pipeline prices steps ChronosPredict.NUM_SAMPLES)
        as [forecast|e].
      * unfold ChronosPredict.quantile_dim0.
        destruct (ChronosPredict.numel forecast =? 0).
        -- right. split; [reflexivity|]. eexists.
           split; [|reflexivity]. reflexivity.
        -- left. split; [reflexivity|]. eexists _, _, _.
           split; [reflexivity|]. now rewrite !length_map.
      * right. split; [reflexivity|]. eexists.
        split; [|reflexivity]. reflexivity.
    + right. split; [reflexivity|]. eexists.
      split; [|reflexivity]. reflexivity.
  - right. split; [reflexivity|]. eexists.
    split; [|reflexivity]. reflexivity.
Qed.

(** ** More on the model resolver *)

(** X12.  The candidate loop stops at the first name the hub serves.  When
    the names before [f] all fail and [f] downloads, exactly those names
    and [f] are requested, in order, none of the names after [f] is, the
    path of [f] is the result, and the error kept is the one of the last
    failed name (or the one the loop was entered with). *)
Theorem first_candidate_wins :
  forall env (before after : list string) (f path : string) last_error,
    Forall (fun g => is_ok (hf_hub_download env g) = false) before ->
    hf_hub_download env f = Ok path ->
    let r := try_candidates env (before ++ f :: after) last_error in
    fst r = map HubDownload (before ++ [f])
    /\ fst (snd r) = Some path
    /\ snd (snd r)
       = fold_left (fun acc g =>
                      match hf_hub_download env g with
                      | Raise e => Some e
                      | Ok _ => acc
                      end)
                   before last_error.
Proof.
  intros env before after f path last_error Hbefore Hf. cbn zeta.
  revert last_error.
  induction Hbefore as [|g before Hg Hbefore IH]; intros last_error.
  - cbn [app try_candidates map fold_left].
    unfold io_bind, download, emit. rewrite Hf. auto.
  - cbn [app try_candidates map fold_left].
    rewrite io_bind_fst, io_bind_snd. unfold download, emit. cbn [fst snd].
    destruct (hf_hub_download env g) as [p|e]; [discriminate|].
    destruct (IH (Some e)) as (H1 & H2 & H3).
    rewrite H1, H2, H3. auto.
Qed.

Lemma first_candidate_wins_witness :
  let r := try_candidates keras_env
             (["model.pth"%string; "model.keras"%string]
                ++ "final.keras"%string :: ["model.pt"%string])
             None in
  fst r
  = map HubDownload (["model.pth"%string; "model.keras"%string]
                       ++ ["final.keras"%string])
  /\ fst (snd r) = Some "/cache/final.keras"%string
  /\ snd (snd r)
     = fold_left (fun acc g =>
                    match hf_hub_download keras_env g with
                    | Raise e => Some e
                    | Ok _ => acc
                    end)
                 ["model.pth"; "model.keras"]%string None.
Proof.
  apply (@first_candidate_wins keras_env
           ["model.pth"; "model.keras"]%string ["model.pt"]%string
           "final.keras"%string "/cache/final.keras"%string None).
  - repeat constructor.
  - reflexivity.
Defined.

Lemma try_candidates_all_fail (env : Env) (err : string -> string)
    (filenames : list string) :
  (forall f, hf_hub_download env f = Raise (err f)) ->
  forall last_error,
    try_candidates env filenames last_error
    = (map HubDownload filenames,
       (None, fold_left (fun _ f => Some (err f)) filenames last_error)).
Proof.
  intros Hall. induction filenames as [|f rest IH]; intros last_error.
  - reflexivity.
  - cbn [try_candidates]. unfold io_bind, download, emit.
    rewrite Hall, IH. reflexivity.
Qed.

(** X13.  When the hub serves no file at all, the resolver reports that no
    model was found and calls no loader.  It lists the repository, tries
    the seven PyTorch names and the three Keras names in order, lists
    again and tries the first listed [.keras] file if there is one, and
    lists a last time for the message, which names the files of the
    repository when the listing works, says that the repository may not
    exist or is private when it does not, and ends with the error of the
    last Keras candidate. *)
Theorem model_not_found :
  forall env (err : string -> string),
    (forall f, hf_hub_download env f = Raise (err f)) ->
    snd (load_model env)
    = Failure
        (match list_repo_files env with
         | Ok files =>
             "Model file not found. Available files: "
               ++ String.concat ", " files
               ++ ". Last error: " ++ err "lstm_model.keras"
         | Raise _ =>
             "Model file not found. Repository may not exist or is private. Last error: "
               ++ err "lstm_model.keras"
         end)%string
    /\ fst (load_model env)
       = [ListRepoFiles]
         ++ map HubDownload (possible_filenames ++ keras_files)
         ++ [ListRepoFiles]
         ++ match list_repo_files env with
            | Ok files =>
                match find (endswith ".keras") files with
                | Some keras_file => [HubDownload keras_file]
                | None => []
                end
            | Raise _ => []
            end
         ++ [ListRepoFiles].
Proof.
  intros env err Hall. unfold load_model, io_bind.
  rewrite (try_candidates_all_fail env err possible_filenames Hall).
  rewrite (try_candidates_all_fail env err keras_files Hall).
  unfold find_any_keras, not_found, io_bind, list_files, download, emit.
  destruct (list_repo_files env) as [files|e].
  - destruct (find (endswith ".keras") files) as [kf|] eqn:Ek.
    + assert (Hkf : endswith ".keras" kf = true)
        by (now apply find_some in Ek).
      rewrite (endswith_truthy ".keras" kf eq_refl Hkf), Hall.
      split; reflexivity.
    + split; reflexivity.
  - split; reflexivity.
Qed.

Lemma model_not_found_witness :
  snd (load_model dark_env)
  = Failure
      (match list_repo_files dark_env with
       | Ok files =>
           "Model file not found. Available files: "
             ++ String.concat ", " files
             ++ ". Last error: " ++ "404 Client Error: lstm_model.keras"
       | Raise _ =>
           "Model file not found. Repository may not exist or is private. Last error: "
             ++ "404 Client Error: lstm_model.keras"
       end)%string
  /\ fst (load_model dark_env)
     = [ListRepoFiles]
       ++ map HubDownload (possible_filenames ++ keras_files)
       ++ [ListRepoFiles]
       ++ match list_repo_files dark_env with
          | Ok files =>
              match find (endswith ".keras") files with
              | Some keras_file => [HubDownload keras_file]
              | None => []
              end
          | Raise _ => []
          end
       ++ [ListRepoFiles].
Proof.
  apply (@model_not_found dark_env
           (fun f => "404 Client Error: " ++ f)%string).
  intros f. reflexivity.
Defined.

Lemma hub_only_candidates (env : Env) (filenames : list string) :
  forall last_error,
    forallb hub_event (fst (try_candidates env filenames last_error)) = true.
Proof.
  induction filenames as [|f rest IH]; intros last_error; [reflexivity|].
  cbn [try_candidates]. rewrite io_bind_fst. unfold download, emit.
  cbn [fst snd app forallb hub_event andb].
  destruct (hf_hub_download env f); [reflexivity | apply IH].
Qed.

Lemma hub_only_any_keras (env : Env) :
  forallb hub_event (fst (find_any_keras env)) = true.
Proof.
  unfold find_any_keras, io_bind, list_files, download, emit.
  destruct (list_repo_files env) as [files|]; [|reflexivity].
  destruct (find (endswith ".keras") files) as [kf|]; [|reflexivity].
  destruct (truthy kf); [|reflexivity].
  destruct (hf_hub_download env kf); reflexivity.
Qed.

Lemma hub_only_companions (env : Env) :
  forallb hub_event (fst (find_companions env)) = true.
Proof.
  unfold find_companions, io_bind, list_files, download, emit.
  destruct (list_repo_files env) as [files|]; [|reflexivity].
  destruct (find is_scaler_file files) as [sf|];
    [destruct (truthy sf); [destruct (hf_hub_download env sf)|]|];
    cbn [io_ret]; try reflexivity;
    (destruct (find is_metadata_file files) as [mf|];
     [destruct (truthy mf); [destruct (hf_hub_download env mf)|]|];
     reflexivity).
Qed.

Lemma hub_only_not_found (env : Env) (last_error : option string) :
  forallb hub_event (fst (not_found env last_error)) = true.
Proof.
  unfold not_found, io_bind, list_files, emit.
  destruct (list_repo_files env); reflexivity.
Qed.

Lemma loaders_only_dispatch (env : Env) (path : string)
    (sp mp : option string) :
  forallb (fun e => negb (hub_event e)) (fst (dispatch env path sp mp))
  = true.
Proof.
  unfold dispatch, load_keras, load_torch, io_bind, emit.
  destruct (truthy path && endswith ".keras" path).
  - destruct (negb (HAS_TF env)); [reflexivity|].
    destruct (tf_load_model env path); [|reflexivity].
    destruct mp as [m|]; [destruct (truthy m); [destruct (json_load env m)|]|];
      (destruct sp as [s|];
       [destruct (truthy s); [destruct (pickle_load env s)|]|]);
      reflexivity.
  - destruct (torch_load env path); [|reflexivity].
    destruct (load_state_dict env _); reflexivity.
Qed.

(** X14.  The resolver works in two phases.  Its calls to the hub (listings
    and downloads) all come before its calls to the loaders (of the model,
    the metadata and the scaler): once a file is being loaded, nothing is
    fetched any more. *)
Theorem hub_calls_precede_loads :
  forall env,
    exists hub_log load_log,
      fst (load_model env) = hub_log ++ load_log
      /\ forallb hub_event hub_log = true
      /\ forallb (fun e => negb (hub_event e)) load_log = true.
Proof.
  intros env. unfold load_model.
  rewrite io_bind_fst, io_bind_fst.
  pose proof (hub_only_candidates env possible_filenames None) as H1.
  destruct (try_candidates env possible_filenames None)
    as [log1 [[path|] last_error]]; cbn [fst snd] in *.
  - exists (fst (list_files env) ++ log1), (fst (dispatch env path None None)).
    rewrite <- app_assoc. split; [reflexivity|].
    split; [|apply loaders_only_dispatch].
    rewrite forallb_app, H1. reflexivity.
  - rewrite io_bind_fst.
    pose proof (hub_only_candidates env keras_files last_error) as H2.
    destruct (try_candidates env keras_files last_error)
      as [log2 [model_path last_error']]; cbn [fst snd] in *.
    rewrite io_bind_fst, io_bind_fst.
    set (resolve := match model_path with
                    | Some _ => io_ret model_path
                    | None => find_any_keras env
                    end).
    assert (H3 : forallb hub_event (fst resolve) = true)
      by (unfold resolve; destruct model_path;
          [reflexivity | apply hub_only_any_keras]).
    set (search := if path_truthy (snd resolve) then find_companions env
                   else io_ret (None, None)).
    assert (H4 : forallb hub_event (fst search) = true)
      by (unfold search; destruct (path_truthy (snd resolve));
          [apply hub_only_companions | reflexivity]).
    destruct (snd search) as [sp mp].
    destruct (snd resolve) as [path|].
    + exists (fst (list_files env) ++ log1 ++ log2 ++ fst resolve
                ++ fst search),
             (fst (dispatch env path sp mp)).
      rewrite <- !app_assoc. split; [reflexivity|].
      split; [|apply loaders_only_dispatch].
      rewrite !forallb_app, H1, H2, H3, H4. reflexivity.
    + exists (fst (list_files env) ++ log1 ++ log2 ++ fst resolve
                ++ fst search ++ fst (not_found env last_error')), [].
      rewrite <- !app_assoc, app_nil_r. split; [reflexivity|].
      split; [|reflexivity].
      rewrite !forallb_app, H1, H2, H3, H4, hub_only_not_found.
      reflexivity.
Qed.


Lemma load_model_keras_log (env : Env) (path : string) :
  found_by_name env possible_filenames = None ->
  (found_by_name env keras_files = Some path
   \/ (found_by_name env keras_files = None
       /\ found_by_listing env = Some path)) ->
  truthy path = true ->
  exists hub_log,
    forallb hub_event hub_log = true
    /\ fst (load_model env)
       = hub_log
           ++ fst (dispatch env path (fst (snd (find_companions env)))
                            (snd (snd (find_companions env))))
    /\ snd (load_model env)
       = snd (dispatch env path (fst (snd (find_companions env)))
                       (snd (snd (find_companions env)))).
Proof.
  intros Hnative Halt Htruthy.
  unfold load_model.
  rewrite io_bind_fst, io_bind_snd, io_bind_fst, io_bind_snd.
  pose proof (try_candidates_found env possible_filenames None) as H1.
  pose proof (hub_only_candidates env possible_filenames None) as G1.
  rewrite Hnative in H1.
  destruct (try_candidates env possible_filenames None)
    as [log1 [mp1 le1]]. cbn [fst snd] in *. subst mp1.
  rewrite io_bind_fst, io_bind_snd.
  pose proof (try_candidates_found env keras_files le1) as H2.
  pose proof (hub_only_candidates env keras_files le1) as G2.
  destruct (try_candidates env keras_files le1) as [log2 [mp2 le2]].
  cbn [fst snd] in *.
  set (resolve := match mp2 with
                  | Some _ => io_ret mp2
                  | None => find_any_keras env
                  end).
  assert (Hres : snd resolve = Some path).
  { unfold resolve. destruct Halt as [Hk | [Hk Hl]]; rewrite Hk in H2;
      subst mp2; [reflexivity | exact Hl]. }
  assert (G3 : forallb hub_event (fst resolve) = true)
    by (unfold resolve; destruct mp2;
        [reflexivity | apply hub_only_any_keras]).
  pose proof (hub_only_companions env) as G4.
  rewrite io_bind_fst, io_bind_snd, Hres.
  cbn [path_truthy]. rewrite Htruthy.
  rewrite io_bind_fst, io_bind_snd.
  destruct (find_companions env) as [logc [sp mp]]. cbn [fst snd] in *.
  exists (fst (list_files env) ++ log1 ++ log2 ++ fst resolve ++ logc).
  split; [|split; [now rewrite <- !app_assoc | reflexivity]].
  now rewrite !forallb_app, G1, G2, G3, G4.
Qed.

(** X15.  A Keras artifact on a machine without TensorFlow.  When no PyTorch
    candidate downloads and the artifact found ends in [.keras], the
    resolver fails with the message that names the file and the package to
    install, and it calls no loader at all. *)
Theorem keras_without_tensorflow :
  forall (env : Env) (path : string),
    found_by_name env possible_filenames = None ->
    (found_by_name env keras_files = Some path
     \/ (found_by_name env keras_files = None
         /\ found_by_listing env = Some path)) ->
    endswith ".keras" path = true ->
    HAS_TF env = false ->
    snd (load_model env)
    = Failure ("Keras model detected (" ++ path
                 ++ ") but TensorFlow is not installed. Please install TensorFlow: pip install tensorflow")%string
    /\ forallb hub_event (fst (load_model env)) = true.
Proof.
  intros env path Hnative Halt Hkeras Htf.
  assert (Htruthy : truthy path = true)
    by (now apply (endswith_truthy ".keras")).
  destruct (load_model_keras_log env Hnative Halt Htruthy)
    as (hub_log & Hhub & -> & ->).
  unfold dispatch, load_keras. rewrite Htruthy, Hkeras, Htf.
  cbn [andb negb io_ret fst snd]. rewrite app_nil_r. auto.
Qed.

Lemma keras_without_tensorflow_witness :
  snd (load_model no_tf_env)
  = Failure ("Keras model detected (" ++ "/cache/final.keras"
               ++ ") but TensorFlow is not installed. Please install TensorFlow: pip install tensorflow")%string
  /\ forallb hub_event (fst (load_model no_tf_env)) = true.
Proof.
  apply (@keras_without_tensorflow no_tf_env "/cache/final.keras").
  - reflexivity.
  - right. split; reflexivity.
  - reflexivity.
  - reflexivity.
Defined.



(** ** The tests on file names *)

Lemma prefix_spec (p s : string) :
  prefix p s = true <-> exists post, s = (p ++ post)%string.
Proof.
  revert s. induction p as [|c p IH]; intros s.
  - split; [intros _; now exists s | intros _; now destruct s].
  - destruct s as [|d s]; simpl.
    + split; [discriminate | intros [post H]; discriminate].
    + destruct (ascii_dec c d) as [<- | Hcd].
      * rewrite IH. split; intros [post H]; exists post.
        -- now rewrite H.
        -- now injection H.
      * split; [discriminate|]. intros [post H]. injection H as H _.
        congruence.
Qed.

Lemma contains_spec (sub s : string) :
  contains sub s = true
  <-> exists pre post, s = (pre ++ sub ++ post)%string.
Proof.
  induction s as [|c s IH].
  - cbn [contains]. rewrite orb_false_r, prefix_spec. split.
    + intros [post H]. now exists EmptyString, post.
    + intros (pre & post & H). destruct pre; [now exists post|].
      discriminate.
  - cbn [contains]. rewrite orb_true_iff, prefix_spec, IH. split.
    + intros [[post H] | (pre & post & H)].
      * now exists EmptyString, post.
      * exists (String c pre), post. now rewrite H.
    + intros (pre & post & H). destruct pre as [|d pre].
      * left. now exists post.
      * right. injection H as _ H. now exists pre, post.
Qed.

Lemma substring_all (s : string) : substring 0 (String.length s) s = s.
Proof. induction s; simpl; [reflexivity | now rewrite IHs]. Qed.

Lemma substring_suffix (pre suf : string) :
  substring (String.length pre) (String.length suf) (pre ++ suf) = suf.
Proof.
  induction pre as [|c pre IH]; simpl; [apply substring_all | exact IH].
Qed.

Lemma length_append (a b : string) :
  String.length (a ++ b) = String.length a + String.length b.
Proof. induction a; simpl; [reflexivity | now rewrite IHa]. Qed.

Lemma substring_split (n : nat) (s : string) :
  n <= String.length s ->
  s = (substring 0 n s ++ substring n (String.length s - n) s)%string.
Proof.
  revert s. induction n as [|n IH]; intros s Hn.
  - rewrite Nat.sub_0_r, substring_all. now destruct s.
  - destruct s as [|c s]; simpl in *; [lia|].
    rewrite <- IH by lia. reflexivity.
Qed.

Lemma endswith_spec (suffix s : string) :
  endswith suffix s = true <-> exists pre, s = (pre ++ suffix)%string.
Proof.
  unfold endswith. rewrite andb_true_iff, Nat.leb_le, String.eqb_eq.
  split.
  - intros [Hlen Hsub].
    exists (substring 0 (String.length s - String.length suffix) s).
    pose proof (@substring_split (String.length s - String.length suffix) s)
      as H.
    replace (String.length s - (String.length s - String.length suffix))
      with (String.length suffix) in H by lia.
    rewrite Hsub in H. apply H. lia.
  - intros [pre ->]. rewrite length_append. split; [lia|].
    replace (String.length pre + String.length suffix
             - String.length suffix) with (String.length pre) by lia.
    apply substring_suffix.
Qed.

(** X17.  The name tests of the resolver mean what they say.  A file is taken
    for the scaler exactly when its name, lowercased, has "scaler"
    somewhere in it and the name itself ends in ".pkl"; for the metadata
    exactly when the lowercased name has "metadata" in it and the name
    ends in ".json"; so the keyword is matched whatever its case and the
    extension only in lower case. *)
Theorem companion_name_tests :
  forall f : string,
    (is_scaler_file f = true
     <-> (exists pre post, lower f = (pre ++ "scaler" ++ post)%string)
         /\ exists stem, f = (stem ++ ".pkl")%string)
    /\ (is_metadata_file f = true
        <-> (exists pre post, lower f = (pre ++ "metadata" ++ post)%string)
            /\ exists stem, f = (stem ++ ".json")%string).
Proof.
  intros f. unfold is_scaler_file, is_metadata_file.
  rewrite !andb_true_iff, !contains_spec, !endswith_spec. tauto.
Qed.

(** X18.  The Keras branch, once TensorFlow is there.  When no PyTorch
    candidate downloads and the artifact found ends in [.keras], the
    resolver returns the tuple of the loaded model, the scaler and the
    metadata, where a companion is present exactly when its file was
    downloaded and its loader did not raise; if the model itself does not
    load, the message is "Failed to load Keras model: ..." and no
    companion is opened.  The model is loaded first, then the metadata,
    then the scaler. *)
Theorem keras_bundle_loaded :
  forall (env : Env) (path : string),
    found_by_name env possible_filenames = None ->
    (found_by_name env keras_files = Some path
     \/ (found_by_name env keras_files = None
         /\ found_by_listing env = Some path)) ->
    endswith ".keras" path = true ->
    HAS_TF env = true ->
    let scaler_path := fst (snd (find_companions env)) in
    let metadata_path := snd (snd (find_companions env)) in
    snd (load_model env)
    = match tf_load_model env path with
      | Ok keras_model =>
          Model (KerasTuple keras_model
                            (best_effort (pickle_load env) scaler_path)
                            (best_effort (json_load env) metadata_path))
      | Raise e => Failure ("Failed to load Keras model: " ++ e)
      end
    /\ filter (fun e => negb (hub_event e)) (fst (load_model env))
       = KerasLoad path
           :: if is_ok (tf_load_model env path)
              then opened JsonLoad metadata_path
                     ++ opened PickleLoad scaler_path
              else [].
Proof.
  intros env path Hnative Halt Hkeras Htf. cbn zeta.
  assert (Htruthy : truthy path = true)
    by (now apply (endswith_truthy ".keras")).
  destruct (load_model_keras_log env Hnative Halt Htruthy)
    as (hub_log & Hhub & -> & ->).
  assert (Hf : filter (fun e => negb (hub_event e)) hub_log = []).
  { clear - Hhub. induction hub_log as [|e l IH]; [reflexivity|].
    simpl in *. apply andb_prop in Hhub as [He Hl].
    rewrite He. now apply IH. }
  rewrite filter_app, Hf.
  destruct (find_companions env) as [logc [sp mp]]. cbn [fst snd].
  unfold dispatch, load_keras, opened, best_effort.
  rewrite Htruthy, Hkeras, Htf.
  cbn [andb negb]. unfold io_bind, emit.
  destruct (tf_load_model env path) as [km|e]; [|split; reflexivity].
  destruct mp as [m|]; [destruct (truthy m); [destruct (json_load env m)|]|];
    (destruct sp as [s|];
     [destruct (truthy s); [destruct (pickle_load env s)|]|]);
    split; reflexivity.
Qed.

Lemma keras_bundle_loaded_witness :
  let scaler_path := fst (snd (find_companions keras_env)) in
  let metadata_path := snd (snd (find_companions keras_env)) in
  snd (load_model keras_env)
  = match tf_load_model keras_env "/cache/final.keras" with
    | Ok keras_model =>
        Model (KerasTuple keras_model
                          (best_effort (pickle_load keras_env) scaler_path)
                          (best_effort (json_load keras_env) metadata_path))
    | Raise e => Failure ("Failed to load Keras model: " ++ e)
    end
  /\ filter (fun e => negb (hub_event e)) (fst (load_model keras_env))
     = KerasLoad "/cache/final.keras"
         :: if is_ok (tf_load_model keras_env "/cache/final.keras")
            then opened JsonLoad metadata_path
                   ++ opened PickleLoad scaler_path
            else [].
Proof.
  apply (@keras_bundle_loaded keras_env "/cache/final.keras").
  - reflexivity.
  - right. split; reflexivity.
  - reflexivity.
  - reflexivity.
Defined.
